(** * MicroBitButton: the debouncing button state machine

    A shallow embedding of [source/drivers/MicroBitButton.cpp] and
    [inc/drivers/MicroBitButton.h], and the properties of

      - the integrator [sigma] (clamping to [0, 12]),
      - the hysteresis of the pressed flag (bit 0 of [status]),
      - the events raised by [systemTick].

    Integers are modelled as [Z] with the wrap-around of the C++ type written
    out: [sigma] is a [uint8_t], and so is taken the inherited [status], of
    which only bits 0 and 1 are used; [downStartTime] is an [unsigned long]
    (32 bits on the nRF51 target). *)

From Stdlib Require Import ZArith List Bool Lia.
Import ListNotations.
Local Open Scope Z_scope.

(** ** Constants of MicroBitButton.h *)

Definition MICROBIT_BUTTON_EVT_DOWN : Z := 1.
Definition MICROBIT_BUTTON_EVT_UP : Z := 2.
Definition MICROBIT_BUTTON_EVT_CLICK : Z := 3.
Definition MICROBIT_BUTTON_EVT_LONG_CLICK : Z := 4.
Definition MICROBIT_BUTTON_EVT_HOLD : Z := 5.
Definition MICROBIT_BUTTON_EVT_DOUBLE_CLICK : Z := 6.

Definition MICROBIT_BUTTON_LONG_CLICK_TIME : Z := 1000.
Definition MICROBIT_BUTTON_HOLD_TIME : Z := 1500.

Definition MICROBIT_BUTTON_STATE : Z := 1.
Definition MICROBIT_BUTTON_STATE_HOLD_TRIGGERED : Z := 2.
Definition MICROBIT_BUTTON_STATE_CLICK : Z := 4.
Definition MICROBIT_BUTTON_STATE_LONG_CLICK : Z := 8.

Definition MICROBIT_BUTTON_SIGMA_MIN : Z := 0.
Definition MICROBIT_BUTTON_SIGMA_MAX : Z := 12.
Definition MICROBIT_BUTTON_SIGMA_THRESH_HI : Z := 8.
Definition MICROBIT_BUTTON_SIGMA_THRESH_LO : Z := 2.
Definition MICROBIT_BUTTON_DOUBLE_CLICK_THRESH : Z := 50.

Inductive MicroBitButtonEventConfiguration : Type :=
| MICROBIT_BUTTON_SIMPLE_EVENTS
| MICROBIT_BUTTON_ALL_EVENTS.

Definition config_eqb (c d : MicroBitButtonEventConfiguration) : bool :=
  match c, d with
  | MICROBIT_BUTTON_SIMPLE_EVENTS, MICROBIT_BUTTON_SIMPLE_EVENTS => true
  | MICROBIT_BUTTON_ALL_EVENTS, MICROBIT_BUTTON_ALL_EVENTS => true
  | _, _ => false
  end.

(** ** Machine integers *)

(** Conversion to [uint8_t]. *)
Definition wrap8 (z : Z) : Z := z mod 2 ^ 8.

(** Width of [unsigned long] on the target. *)
Definition ULONG_BITS : Z := 32.

(** [a - b] on [unsigned long]. *)
Definition ulong_sub (a b : Z) : Z := (a - b) mod 2 ^ ULONG_BITS.

(** [x & mask] used as a condition. *)
Definition test (x mask : Z) : bool := negb (Z.land x mask =? 0).

(** ** The object *)

(** The fields of the class, with [id] and [status] inherited from
    MicroBitComponent.  The [DigitalIn pin] member is the hardware input: its
    value is an argument of [systemTick] below. *)
Record MicroBitButton : Type := mkButton {
  id : Z;
  status : Z;
  name : Z;
  downStartTime : Z;
  sigma : Z;
  eventConfiguration : MicroBitButtonEventConfiguration
}.

(** Modelled from the spec: MicroBitEvent (MicroBitEvent.h) is not part of the
    sources at hand.  Constructing [MicroBitEvent evt(source, value)] emits an
    event of that kind to the event sink; the emission is its only observable
    effect.  An event carries [(identity, eventKind)]. *)
Record MicroBitEvent : Type := mkEvent {
  source : Z;
  value : Z
}.

(** ** A state and output monad for the member functions

    A member function reads and writes the fields of [this] and raises
    events, in program order. *)

Definition M (A : Type) : Type :=
  MicroBitButton -> A * MicroBitButton * list MicroBitEvent.

Definition ret {A : Type} (a : A) : M A := fun b => (a, b, []).

Definition bind {A B : Type} (m : M A) (k : A -> M B) : M B :=
  fun b =>
    let '(a, b1, out1) := m b in
    let '(r, b2, out2) := k a b1 in
    (r, b2, out1 ++ out2).

Declare Scope button_scope.
Delimit Scope button_scope with button.
Notation "x <- m ;; k" := (bind m (fun x => k))
  (at level 61, m at next level, right associativity) : button_scope.
Notation "m ;; k" := (bind m (fun _ => k))
  (at level 61, right associativity) : button_scope.
Local Open Scope button_scope.

Definition this : M MicroBitButton := fun b => (b, b, []).

Definition set_status (v : Z) : M unit :=
  fun b => (tt, mkButton (id b) v (name b) (downStartTime b) (sigma b)
                         (eventConfiguration b), []).

Definition set_downStartTime (v : Z) : M unit :=
  fun b => (tt, mkButton (id b) (status b) (name b) v (sigma b)
                         (eventConfiguration b), []).

Definition set_sigma (v : Z) : M unit :=
  fun b => (tt, mkButton (id b) (status b) (name b) (downStartTime b) v
                         (eventConfiguration b), []).

Definition set_eventConfiguration (c : MicroBitButtonEventConfiguration)
  : M unit :=
  fun b => (tt, mkButton (id b) (status b) (name b) (downStartTime b)
                         (sigma b) c, []).

(** [MicroBitEvent evt(source, value);] *)
Definition fire (src v : Z) : M unit :=
  fun b => (tt, b, [mkEvent src v]).

(** [if (c) { body }] *)
Definition when (c : bool) (body : M unit) : M unit :=
  if c then body else ret tt.

Definition state_of {A : Type} (r : A * MicroBitButton * list MicroBitEvent)
  : MicroBitButton := snd (fst r).

Definition events_of {A : Type} (r : A * MicroBitButton * list MicroBitEvent)
  : list MicroBitEvent := snd r.

(** ** Constructor, setEventConfiguration, isPressed *)

(** Modelled from the spec: the base class MicroBitComponent is not part of
    the sources at hand; a new button has [pressed = false] and
    [holdTriggered = false], that is [status = 0].  The other fields are set
    by the constructor of MicroBitButton.cpp. *)
Definition MicroBitButton_new (nm ident : Z)
    (cfg : MicroBitButtonEventConfiguration) : MicroBitButton :=
  {| id := ident;
     status := 0;
     name := nm;
     downStartTime := 0;
     sigma := 0;
     eventConfiguration := cfg |}.

Definition setEventConfiguration (config : MicroBitButtonEventConfiguration)
  : M unit :=
  set_eventConfiguration config.

Definition isPressed (b : MicroBitButton) : Z :=
  if test (status b) MICROBIT_BUTTON_STATE then 1 else 0.

(** ** systemTick

    [pin] is the level read from the [DigitalIn] ([true] is high; the button
    pulls the pin low, so the input is asserted when [pin] is [false]).

    The clock, system_timer_current_time of MicroBitSystemTimer.h, is not
    part of the sources at hand: following the spec it is a millisecond
    clock of the type of [downStartTime].  Each of the three blocks that read
    it takes the value read as its argument [now]. *)

(** Lines 92-101: the lazy follower. *)
Definition integrate (pin : bool) : M unit :=
  b <- this ;;
  if negb pin then
    when (sigma b <? MICROBIT_BUTTON_SIGMA_MAX)
      (set_sigma (wrap8 (sigma b + 1)))
  else
    when (sigma b >? MICROBIT_BUTTON_SIGMA_MIN)
      (set_sigma (wrap8 (sigma b - 1))).

(** Lines 104-112: off->on state change. *)
Definition press_edge (now : Z) : M unit :=
  b <- this ;;
  when ((sigma b >? MICROBIT_BUTTON_SIGMA_THRESH_HI)
        && negb (test (status b) MICROBIT_BUTTON_STATE))
    (set_status (wrap8 (Z.lor (status b) MICROBIT_BUTTON_STATE)) ;;
     fire (id b) MICROBIT_BUTTON_EVT_DOWN ;;
     set_downStartTime now).

(** Lines 115-128: on->off state change. *)
Definition release_edge (now : Z) : M unit :=
  b <- this ;;
  when ((sigma b <? MICROBIT_BUTTON_SIGMA_THRESH_LO)
        && test (status b) MICROBIT_BUTTON_STATE)
    (set_status 0 ;;
     fire (id b) MICROBIT_BUTTON_EVT_UP ;;
     when (config_eqb (eventConfiguration b) MICROBIT_BUTTON_ALL_EVENTS)
       (if ulong_sub now (downStartTime b)
             >=? MICROBIT_BUTTON_LONG_CLICK_TIME
        then fire (id b) MICROBIT_BUTTON_EVT_LONG_CLICK
        else fire (id b) MICROBIT_BUTTON_EVT_CLICK)).

(** Lines 131-138: the hold event. *)
Definition hold_check (now : Z) : M unit :=
  b <- this ;;
  when (test (status b) MICROBIT_BUTTON_STATE
        && negb (test (status b) MICROBIT_BUTTON_STATE_HOLD_TRIGGERED)
        && (ulong_sub now (downStartTime b) >=? MICROBIT_BUTTON_HOLD_TIME))
    (set_status (wrap8 (Z.lor (status b)
                              MICROBIT_BUTTON_STATE_HOLD_TRIGGERED)) ;;
     fire (id b) MICROBIT_BUTTON_EVT_HOLD).

(** One tick; the clock reads [now] throughout the tick. *)
Definition systemTick (pin : bool) (now : Z) : M unit :=
  integrate pin ;;
  press_edge now ;;
  release_edge now ;;
  hold_check now.

(** ** Sequences of calls *)

(** What a client and the scheduler do with a button between construction
    and destruction. *)
Inductive Op : Type :=
| Tick (pin : bool) (now : Z)
| SetConfig (config : MicroBitButtonEventConfiguration).

Definition step (o : Op) : M unit :=
  match o with
  | Tick pin now => systemTick pin now
  | SetConfig config => setEventConfiguration config
  end.

Fixpoint run (ops : list Op) : M unit :=
  match ops with
  | [] => ret tt
  | o :: rest => step o ;; run rest
  end.

(** Call by call, the integrator after the call and the events it raised. *)
Fixpoint trace (ops : list Op) (b : MicroBitButton)
  : list (Z * list MicroBitEvent) :=
  match ops with
  | [] => []
  | o :: rest =>
      (sigma (state_of (step o b)), events_of (step o b))
      :: trace rest (state_of (step o b))
  end.

(** ** Vocabulary of the properties *)

Definition pressed (b : MicroBitButton) : bool :=
  test (status b) MICROBIT_BUTTON_STATE.

Definition holdTriggered (b : MicroBitButton) : bool :=
  test (status b) MICROBIT_BUTTON_STATE_HOLD_TRIGGERED.

(** The integrator after the update of a tick. *)
Definition sigma_next (pin : bool) (b : MicroBitButton) : Z :=
  sigma (state_of (integrate pin b)).

Definition is_press_edge (pin : bool) (b : MicroBitButton) : bool :=
  (sigma_next pin b >? MICROBIT_BUTTON_SIGMA_THRESH_HI) && negb (pressed b).

Definition is_release_edge (pin : bool) (b : MicroBitButton) : bool :=
  (sigma_next pin b <? MICROBIT_BUTTON_SIGMA_THRESH_LO) && pressed b.

(** The state in which the hold condition of a tick is evaluated. *)
Definition at_hold_check (pin : bool) (now : Z) (b : MicroBitButton)
  : MicroBitButton :=
  state_of ((integrate pin ;; press_edge now ;; release_edge now) b).

Definition hold_condition (now : Z) (b : MicroBitButton) : bool :=
  pressed b && negb (holdTriggered b)
  && (ulong_sub now (downStartTime b) >=? MICROBIT_BUTTON_HOLD_TIME).

Definition count_kind (k : Z) (evs : list MicroBitEvent) : nat :=
  length (filter (fun e => value e =? k) evs).

Definition kinds (evs : list MicroBitEvent) : list Z := map value evs.

Definition evt (b : MicroBitButton) (k : Z) : MicroBitEvent := mkEvent (id b) k.

(** ** Reachable states and scenarios *)

Definition reach (nm ident : Z) (cfg : MicroBitButtonEventConfiguration)
    (ops : list Op) : MicroBitButton :=
  state_of (run ops (MicroBitButton_new nm ident cfg)).

(** The invariant of the debouncer: the integrator is clamped and the
    pressed flag never lags it across a threshold. *)
Definition debounced (b : MicroBitButton) : Prop :=
  MICROBIT_BUTTON_SIGMA_MIN <= sigma b <= MICROBIT_BUTTON_SIGMA_MAX
  /\ (pressed b = false -> sigma b <= MICROBIT_BUTTON_SIGMA_THRESH_HI)
  /\ (pressed b = true -> MICROBIT_BUTTON_SIGMA_THRESH_LO <= sigma b).

(** [n] ticks with the pin at level [pin], [period] ms apart, the first one
    at time [t0]. *)
Fixpoint ticks (pin : bool) (n : nat) (t0 period : Z) : list Op :=
  match n with
  | O => []
  | S m => Tick pin t0 :: ticks pin m (t0 + period) period
  end.

(** The button held down from [t0] on for [n] ticks, then let go for [m]. *)
Definition press_release (n m : nat) (t0 period : Z) : list Op :=
  ticks false n t0 period ++ ticks true m (t0 + Z.of_nat n * period) period.

(** Two presses, each held for 1500 ms. *)
Definition hold_twice : list Op :=
  ticks false 9 0 0 ++ [Tick false 1500] ++ ticks true 9 1600 0
  ++ ticks false 9 2000 0 ++ [Tick false 3500].

(** The calls that leave the configuration at SIMPLE_EVENTS. *)
Definition stays_simple (ops : list Op) : bool :=
  forallb (fun o => match o with
                    | Tick _ _ => true
                    | SetConfig config =>
                        config_eqb config MICROBIT_BUTTON_SIMPLE_EVENTS
                    end) ops.

(** A button in SIMPLE_EVENTS mode, pressed at time 0 and still held at
    1500 ms. *)
Definition simple_hold : list Op := ticks false 9 0 0 ++ [Tick false 1500].

(** Only differences of clock values are used, and only while the button is
    pressed: the two definitions below move a scenario in time. *)

Definition with_downStartTime (b : MicroBitButton) (x : Z) : MicroBitButton :=
  mkButton (id b) (status b) (name b) x (sigma b) (eventConfiguration b).

Definition shift_op (d : Z) (o : Op) : Op :=
  match o with
  | Tick pin now => Tick pin (now + d)
  | SetConfig config => SetConfig config
  end.

(** ** Samples, clocks and configurations of a sequence of calls *)

(** A tick that samples the input asserted (pin low). *)
Definition is_low (o : Op) : bool :=
  match o with
  | Tick pin _ => negb pin
  | SetConfig _ => false
  end.

(** A tick that samples the input deasserted (pin high). *)
Definition is_high (o : Op) : bool :=
  match o with
  | Tick pin _ => pin
  | SetConfig _ => false
  end.

Definition is_tick (o : Op) : bool :=
  match o with
  | Tick _ _ => true
  | SetConfig _ => false
  end.

Definition count_low (ops : list Op) : Z :=
  Z.of_nat (length (filter is_low ops)).

Definition count_high (ops : list Op) : Z :=
  Z.of_nat (length (filter is_high ops)).

(** The calls that leave the configuration at ALL_EVENTS. *)
Definition stays_all (ops : list Op) : bool :=
  forallb (fun o => match o with
                    | Tick _ _ => true
                    | SetConfig config =>
                        config_eqb config MICROBIT_BUTTON_ALL_EVENTS
                    end) ops.

Definition is_click (e : MicroBitEvent) : bool :=
  (value e =? MICROBIT_BUTTON_EVT_CLICK)
  || (value e =? MICROBIT_BUTTON_EVT_LONG_CLICK).

(** The same calls with every clock value mapped by [f]. *)
Definition map_clock (f : Z -> Z) (o : Op) : Op :=
  match o with
  | Tick pin now => Tick pin (f now)
  | SetConfig config => SetConfig config
  end.

(** The clock values of the ticks never decrease from [t] on and fit an
    [unsigned long]: no rollover within the sequence. *)
Fixpoint monotone (t : Z) (ops : list Op) : bool :=
  match ops with
  | [] => true
  | Tick _ now :: rest =>
      (t <=? now) && (now <? 2 ^ ULONG_BITS) && monotone now rest
  | SetConfig _ :: rest => monotone t rest
  end.

(** The flag bytes a button takes: 0, STATE, STATE | STATE_HOLD_TRIGGERED. *)
Definition status_ok (b : MicroBitButton) : Prop :=
  status b = 0 \/ status b = MICROBIT_BUTTON_STATE
  \/ status b
     = Z.lor MICROBIT_BUTTON_STATE MICROBIT_BUTTON_STATE_HOLD_TRIGGERED.


(** At clock value [t] the press began in the past and, if its HOLD has been
    raised, at least 1500 ms ago. *)
Definition aged (t : Z) (b : MicroBitButton) : Prop :=
  0 <= downStartTime b <= t
  /\ (holdTriggered b = true ->
      downStartTime b + MICROBIT_BUTTON_HOLD_TIME <= t).

(** The events of a list that are not CLICK or LONG_CLICK. *)
Definition without_clicks (evs : list MicroBitEvent) : list MicroBitEvent :=
  filter (fun e => negb (is_click e)) evs.

(** ** Tactics *)

Ltac fields :=
  cbn [id status name downStartTime sigma eventConfiguration
       source value fst snd app].

Ltac run_block :=
  unfold bind, this, when, set_sigma, set_status, set_downStartTime,
    set_eventConfiguration, fire, ret, state_of, events_of;
  fields.

(** ** Bits of [status] *)

Lemma test_pow2 (x k : Z) : 0 <= k -> test x (2 ^ k) = Z.testbit x k.
Proof.
  intros Hk. unfold test.
  destruct (Z.testbit x k) eqn:E.
  - destruct (Z.eqb_spec (Z.land x (2 ^ k)) 0) as [H0 | ]; [ | reflexivity].
    assert (Hb : Z.testbit (Z.land x (2 ^ k)) k = true).
    { rewrite Z.land_spec, E, Z.pow2_bits_true by assumption. reflexivity. }
    rewrite H0, Z.bits_0 in Hb. discriminate.
  - replace (Z.land x (2 ^ k)) with 0; [reflexivity | ].
    symmetry. apply Z.bits_inj'. intros n Hn.
    rewrite Z.land_spec, Z.bits_0, Z.pow2_bits_eqb by assumption.
    destruct (Z.eqb_spec k n) as [-> | ]; [ | apply andb_false_r].
    rewrite E. reflexivity.
Qed.

Lemma test_STATE (x : Z) : test x MICROBIT_BUTTON_STATE = Z.testbit x 0.
Proof. apply (test_pow2 x 0). lia. Qed.

Lemma test_HOLD (x : Z) :
  test x MICROBIT_BUTTON_STATE_HOLD_TRIGGERED = Z.testbit x 1.
Proof. apply (test_pow2 x 1). lia. Qed.

Lemma testbit_wrap8 (x k : Z) :
  k < 8 -> Z.testbit (wrap8 x) k = Z.testbit x k.
Proof. intros Hk. unfold wrap8. apply Z.mod_pow2_bits_low. exact Hk. Qed.

Lemma pressed_set_STATE (s : Z) :
  test (wrap8 (Z.lor s MICROBIT_BUTTON_STATE)) MICROBIT_BUTTON_STATE = true.
Proof.
  rewrite test_STATE, testbit_wrap8, Z.lor_spec by lia.
  apply orb_true_r.
Qed.

Lemma hold_set_STATE (s : Z) :
  test (wrap8 (Z.lor s MICROBIT_BUTTON_STATE))
       MICROBIT_BUTTON_STATE_HOLD_TRIGGERED
  = test s MICROBIT_BUTTON_STATE_HOLD_TRIGGERED.
Proof.
  rewrite !test_HOLD, testbit_wrap8, Z.lor_spec by lia.
  apply orb_false_r.
Qed.

Lemma pressed_set_HOLD (s : Z) :
  test (wrap8 (Z.lor s MICROBIT_BUTTON_STATE_HOLD_TRIGGERED))
       MICROBIT_BUTTON_STATE
  = test s MICROBIT_BUTTON_STATE.
Proof.
  rewrite !test_STATE, testbit_wrap8, Z.lor_spec by lia.
  apply orb_false_r.
Qed.

Lemma hold_set_HOLD (s : Z) :
  test (wrap8 (Z.lor s MICROBIT_BUTTON_STATE_HOLD_TRIGGERED))
       MICROBIT_BUTTON_STATE_HOLD_TRIGGERED = true.
Proof.
  rewrite test_HOLD, testbit_wrap8, Z.lor_spec by lia.
  apply orb_true_r.
Qed.

Lemma test_zero (m : Z) : test 0 m = false.
Proof. reflexivity. Qed.

(** ** Running the monad *)

Lemma state_of_bind {A B : Type} (m : M A) (k : A -> M B) (b : MicroBitButton) :
  state_of (bind m k b) = state_of (k (fst (fst (m b))) (state_of (m b))).
Proof.
  unfold bind, state_of.
  destruct (m b) as [[a b1] out1]; cbn [fst snd].
  destruct (k a b1) as [[r b2] out2]; reflexivity.
Qed.

Lemma events_of_bind {A B : Type} (m : M A) (k : A -> M B)
    (b : MicroBitButton) :
  events_of (bind m k b)
  = events_of (m b) ++ events_of (k (fst (fst (m b))) (state_of (m b))).
Proof.
  unfold bind, state_of, events_of.
  destruct (m b) as [[a b1] out1]; cbn [fst snd].
  destruct (k a b1) as [[r b2] out2]; reflexivity.
Qed.

Lemma bind_assoc {A B C : Type} (m : M A) (k : A -> M B) (h : B -> M C)
    (b : MicroBitButton) :
  bind (bind m k) h b = bind m (fun a => bind (k a) h) b.
Proof.
  unfold bind.
  destruct (m b) as [[a b1] out1].
  destruct (k a b1) as [[r b2] out2].
  destruct (h r b2) as [[c b3] out3].
  rewrite app_assoc. reflexivity.
Qed.

(** ** The blocks of systemTick, one by one *)

Lemma sigma_next_eq (pin : bool) (b : MicroBitButton) :
  sigma_next pin b
  = if negb pin
    then if sigma b <? MICROBIT_BUTTON_SIGMA_MAX
         then wrap8 (sigma b + 1) else sigma b
    else if sigma b >? MICROBIT_BUTTON_SIGMA_MIN
         then wrap8 (sigma b - 1) else sigma b.
Proof.
  unfold sigma_next, integrate. run_block.
  destruct (negb pin);
    [destruct (sigma b <? _) | destruct (sigma b >? _)]; reflexivity.
Qed.

Lemma integrate_state (pin : bool) (b : MicroBitButton) :
  state_of (integrate pin b)
  = mkButton (id b) (status b) (name b) (downStartTime b) (sigma_next pin b)
             (eventConfiguration b).
Proof.
  unfold sigma_next, integrate. run_block.
  destruct b as [i st nm dst sg cfg]; fields.
  destruct (negb pin);
    [destruct (sg <? _) | destruct (sg >? _)]; reflexivity.
Qed.

Lemma integrate_events (pin : bool) (b : MicroBitButton) :
  events_of (integrate pin b) = [].
Proof.
  unfold integrate. run_block.
  destruct (negb pin);
    [destruct (sigma b <? _) | destruct (sigma b >? _)]; reflexivity.
Qed.

Lemma press_edge_state (now : Z) (b : MicroBitButton) :
  state_of (press_edge now b)
  = if (sigma b >? MICROBIT_BUTTON_SIGMA_THRESH_HI) && negb (pressed b)
    then mkButton (id b) (wrap8 (Z.lor (status b) MICROBIT_BUTTON_STATE))
                  (name b) now (sigma b) (eventConfiguration b)
    else b.
Proof.
  unfold press_edge, pressed. run_block.
  destruct (_ && _); reflexivity.
Qed.

Lemma press_edge_events (now : Z) (b : MicroBitButton) :
  events_of (press_edge now b)
  = if (sigma b >? MICROBIT_BUTTON_SIGMA_THRESH_HI) && negb (pressed b)
    then [mkEvent (id b) MICROBIT_BUTTON_EVT_DOWN]
    else [].
Proof.
  unfold press_edge, pressed. run_block.
  destruct (_ && _); reflexivity.
Qed.

Lemma release_edge_state (now : Z) (b : MicroBitButton) :
  state_of (release_edge now b)
  = if (sigma b <? MICROBIT_BUTTON_SIGMA_THRESH_LO) && pressed b
    then mkButton (id b) 0 (name b) (downStartTime b) (sigma b)
                  (eventConfiguration b)
    else b.
Proof.
  unfold release_edge, pressed. run_block.
  destruct (_ && _); [ | reflexivity].
  destruct (config_eqb _ _); [ | reflexivity].
  destruct (_ >=? _); reflexivity.
Qed.

Lemma release_edge_events (now : Z) (b : MicroBitButton) :
  events_of (release_edge now b)
  = if (sigma b <? MICROBIT_BUTTON_SIGMA_THRESH_LO) && pressed b
    then mkEvent (id b) MICROBIT_BUTTON_EVT_UP
         :: match eventConfiguration b with
            | MICROBIT_BUTTON_ALL_EVENTS =>
                [mkEvent (id b)
                   (if ulong_sub now (downStartTime b)
                         >=? MICROBIT_BUTTON_LONG_CLICK_TIME
                    then MICROBIT_BUTTON_EVT_LONG_CLICK
                    else MICROBIT_BUTTON_EVT_CLICK)]
            | MICROBIT_BUTTON_SIMPLE_EVENTS => []
            end
    else [].
Proof.
  unfold release_edge, pressed. run_block.
  destruct (_ && _); [ | reflexivity].
  destruct (eventConfiguration b); cbn [config_eqb]; [reflexivity | ].
  destruct (_ >=? _); reflexivity.
Qed.

Lemma hold_check_state (now : Z) (b : MicroBitButton) :
  state_of (hold_check now b)
  = if hold_condition now b
    then mkButton (id b)
           (wrap8 (Z.lor (status b) MICROBIT_BUTTON_STATE_HOLD_TRIGGERED))
           (name b) (downStartTime b) (sigma b) (eventConfiguration b)
    else b.
Proof.
  unfold hold_check, hold_condition, pressed, holdTriggered. run_block.
  destruct (_ && _); reflexivity.
Qed.

Lemma hold_check_events (now : Z) (b : MicroBitButton) :
  events_of (hold_check now b)
  = if hold_condition now b
    then [mkEvent (id b) MICROBIT_BUTTON_EVT_HOLD]
    else [].
Proof.
  unfold hold_check, hold_condition, pressed, holdTriggered. run_block.
  destruct (_ && _); reflexivity.
Qed.

(** ** One tick as a whole *)

Lemma edges_exclusive (pin : bool) (b : MicroBitButton) :
  is_press_edge pin b && is_release_edge pin b = false.
Proof.
  unfold is_press_edge, is_release_edge,
    MICROBIT_BUTTON_SIGMA_THRESH_HI, MICROBIT_BUTTON_SIGMA_THRESH_LO.
  rewrite Z.gtb_ltb.
  destruct (Z.ltb_spec 8 (sigma_next pin b));
    destruct (Z.ltb_spec (sigma_next pin b) 2);
    destruct (pressed b); try reflexivity; lia.
Qed.

Lemma press_after_integrate (pin : bool) (now : Z) (b : MicroBitButton) :
  state_of (press_edge now (state_of (integrate pin b)))
  = if is_press_edge pin b
    then mkButton (id b) (wrap8 (Z.lor (status b) MICROBIT_BUTTON_STATE))
                  (name b) now (sigma_next pin b) (eventConfiguration b)
    else mkButton (id b) (status b) (name b) (downStartTime b)
                  (sigma_next pin b) (eventConfiguration b).
Proof. rewrite press_edge_state, integrate_state. reflexivity. Qed.

Lemma press_edge_high (pin : bool) (b : MicroBitButton) :
  is_press_edge pin b = true ->
  (sigma_next pin b <? MICROBIT_BUTTON_SIGMA_THRESH_LO) = false.
Proof.
  unfold is_press_edge, MICROBIT_BUTTON_SIGMA_THRESH_HI,
    MICROBIT_BUTTON_SIGMA_THRESH_LO.
  intros Hp. apply andb_prop in Hp as [Hs _].
  rewrite Z.gtb_ltb in Hs. apply Z.ltb_lt in Hs.
  apply Z.ltb_ge. lia.
Qed.

Lemma at_hold_check_eq (pin : bool) (now : Z) (b : MicroBitButton) :
  at_hold_check pin now b
  = mkButton (id b)
      (if is_release_edge pin b then 0
       else if is_press_edge pin b
            then wrap8 (Z.lor (status b) MICROBIT_BUTTON_STATE)
            else status b)
      (name b)
      (if is_press_edge pin b then now else downStartTime b)
      (sigma_next pin b)
      (eventConfiguration b).
Proof.
  unfold at_hold_check.
  rewrite !state_of_bind, release_edge_state, press_after_integrate.
  pose proof (edges_exclusive pin b) as Hx.
  destruct (is_press_edge pin b) eqn:Hp.
  - fields. rewrite (press_edge_high _ _ Hp).
    cbn [andb] in Hx |- *. rewrite Hx. reflexivity.
  - unfold pressed. fields. fold (pressed b).
    fold (is_release_edge pin b).
    destruct (is_release_edge pin b); reflexivity.
Qed.

Lemma systemTick_split (pin : bool) (now : Z) (b : MicroBitButton) :
  systemTick pin now b
  = ((integrate pin ;; press_edge now ;; release_edge now) ;;
     hold_check now) b.
Proof.
  unfold systemTick, bind.
  destruct (integrate pin b) as [[u1 b1] out1].
  destruct (press_edge now b1) as [[u2 b2] out2].
  destruct (release_edge now b2) as [[u3 b3] out3].
  destruct (hold_check now b3) as [[u4 b4] out4].
  rewrite !app_assoc. reflexivity.
Qed.

Lemma tick_state (pin : bool) (now : Z) (b : MicroBitButton) :
  state_of (systemTick pin now b)
  = state_of (hold_check now (at_hold_check pin now b)).
Proof. rewrite systemTick_split, state_of_bind. reflexivity. Qed.

Lemma tick_events (pin : bool) (now : Z) (b : MicroBitButton) :
  events_of (systemTick pin now b)
  = (if is_press_edge pin b then [evt b MICROBIT_BUTTON_EVT_DOWN] else [])
    ++ (if is_release_edge pin b
        then evt b MICROBIT_BUTTON_EVT_UP
             :: match eventConfiguration b with
                | MICROBIT_BUTTON_ALL_EVENTS =>
                    [evt b (if ulong_sub now (downStartTime b)
                                 >=? MICROBIT_BUTTON_LONG_CLICK_TIME
                            then MICROBIT_BUTTON_EVT_LONG_CLICK
                            else MICROBIT_BUTTON_EVT_CLICK)]
                | MICROBIT_BUTTON_SIMPLE_EVENTS => []
                end
        else [])
    ++ (if hold_condition now (at_hold_check pin now b)
        then [evt b MICROBIT_BUTTON_EVT_HOLD] else []).
Proof.
  rewrite systemTick_split, events_of_bind.
  fold (at_hold_check pin now b).
  rewrite hold_check_events, at_hold_check_eq. fields.
  rewrite <- at_hold_check_eq.
  rewrite !events_of_bind, integrate_events, press_edge_events,
    release_edge_events, press_after_integrate, integrate_state.
  fields. unfold pressed at 1. fields. fold (pressed b).
  fold (is_press_edge pin b). unfold evt.
  pose proof (edges_exclusive pin b) as Hx.
  rewrite <- app_assoc. cbn [app]. f_equal.
  destruct (is_press_edge pin b) eqn:Hp.
  - fields. rewrite (press_edge_high _ _ Hp).
    cbn [andb] in Hx |- *. rewrite Hx. reflexivity.
  - unfold pressed. fields. fold (pressed b).
    fold (is_release_edge pin b). reflexivity.
Qed.

(** The state a tick leaves behind, field by field. *)

Lemma tick_sigma (pin : bool) (now : Z) (b : MicroBitButton) :
  sigma (state_of (systemTick pin now b)) = sigma_next pin b.
Proof.
  rewrite tick_state, hold_check_state, at_hold_check_eq.
  destruct (hold_condition _ _); reflexivity.
Qed.

Lemma tick_downStartTime (pin : bool) (now : Z) (b : MicroBitButton) :
  downStartTime (state_of (systemTick pin now b))
  = if is_press_edge pin b then now else downStartTime b.
Proof.
  rewrite tick_state, hold_check_state, at_hold_check_eq.
  destruct (hold_condition _ _); reflexivity.
Qed.

Lemma tick_eventConfiguration (pin : bool) (now : Z) (b : MicroBitButton) :
  eventConfiguration (state_of (systemTick pin now b)) = eventConfiguration b.
Proof.
  rewrite tick_state, hold_check_state, at_hold_check_eq.
  destruct (hold_condition _ _); reflexivity.
Qed.

Lemma tick_id (pin : bool) (now : Z) (b : MicroBitButton) :
  id (state_of (systemTick pin now b)) = id b.
Proof.
  rewrite tick_state, hold_check_state, at_hold_check_eq.
  destruct (hold_condition _ _); reflexivity.
Qed.

Lemma pressed_at_hold_check (pin : bool) (now : Z) (b : MicroBitButton) :
  pressed (at_hold_check pin now b)
  = if is_release_edge pin b then false
    else if is_press_edge pin b then true else pressed b.
Proof.
  rewrite at_hold_check_eq. unfold pressed at 1. fields.
  destruct (is_release_edge pin b); [reflexivity | ].
  destruct (is_press_edge pin b); [apply pressed_set_STATE | reflexivity].
Qed.

Lemma holdTriggered_at_hold_check (pin : bool) (now : Z) (b : MicroBitButton) :
  holdTriggered (at_hold_check pin now b)
  = if is_release_edge pin b then false else holdTriggered b.
Proof.
  rewrite at_hold_check_eq. unfold holdTriggered at 1. fields.
  destruct (is_release_edge pin b); [reflexivity | ].
  destruct (is_press_edge pin b); [apply hold_set_STATE | reflexivity].
Qed.

Lemma downStartTime_at_hold_check (pin : bool) (now : Z) (b : MicroBitButton) :
  downStartTime (at_hold_check pin now b)
  = if is_press_edge pin b then now else downStartTime b.
Proof. rewrite at_hold_check_eq. reflexivity. Qed.

Lemma tick_pressed (pin : bool) (now : Z) (b : MicroBitButton) :
  pressed (state_of (systemTick pin now b))
  = if is_release_edge pin b then false
    else if is_press_edge pin b then true else pressed b.
Proof.
  rewrite <- (pressed_at_hold_check pin now b).
  rewrite tick_state, hold_check_state.
  destruct (hold_condition _ _); [ | reflexivity].
  unfold pressed at 1. fields. apply pressed_set_HOLD.
Qed.

Lemma tick_holdTriggered (pin : bool) (now : Z) (b : MicroBitButton) :
  holdTriggered (state_of (systemTick pin now b))
  = holdTriggered (at_hold_check pin now b)
    || hold_condition now (at_hold_check pin now b).
Proof.
  rewrite tick_state, hold_check_state.
  destruct (hold_condition _ _).
  - unfold holdTriggered at 1. fields.
    rewrite hold_set_HOLD, orb_true_r. reflexivity.
  - rewrite orb_false_r. reflexivity.
Qed.

(** ** The invariant *)

Lemma wrap8_small (z : Z) : 0 <= z < 256 -> wrap8 z = z.
Proof. intros Hz. unfold wrap8. apply Z.mod_small. exact Hz. Qed.

Lemma sigma_next_clamped (pin : bool) (b : MicroBitButton) :
  MICROBIT_BUTTON_SIGMA_MIN <= sigma b <= MICROBIT_BUTTON_SIGMA_MAX ->
  sigma_next pin b
  = if negb pin
    then if sigma b =? MICROBIT_BUTTON_SIGMA_MAX
         then MICROBIT_BUTTON_SIGMA_MAX else sigma b + 1
    else if sigma b =? MICROBIT_BUTTON_SIGMA_MIN
         then MICROBIT_BUTTON_SIGMA_MIN else sigma b - 1.
Proof.
  unfold MICROBIT_BUTTON_SIGMA_MIN, MICROBIT_BUTTON_SIGMA_MAX.
  intros Hs. rewrite sigma_next_eq.
  unfold MICROBIT_BUTTON_SIGMA_MIN, MICROBIT_BUTTON_SIGMA_MAX.
  rewrite Z.gtb_ltb.
  destruct (negb pin).
  - destruct (Z.ltb_spec (sigma b) 12); destruct (Z.eqb_spec (sigma b) 12);
      try lia.
    apply wrap8_small. lia.
  - destruct (Z.ltb_spec 0 (sigma b)); destruct (Z.eqb_spec (sigma b) 0);
      try lia.
    apply wrap8_small. lia.
Qed.

Lemma debounced_new (nm ident : Z) (cfg : MicroBitButtonEventConfiguration) :
  debounced (MicroBitButton_new nm ident cfg).
Proof.
  unfold debounced, pressed, MicroBitButton_new. fields.
  unfold MICROBIT_BUTTON_SIGMA_MIN, MICROBIT_BUTTON_SIGMA_MAX,
    MICROBIT_BUTTON_SIGMA_THRESH_HI, MICROBIT_BUTTON_SIGMA_THRESH_LO.
  rewrite test_zero. repeat split; try lia; discriminate.
Qed.

Lemma debounced_tick (pin : bool) (now : Z) (b : MicroBitButton) :
  debounced b -> debounced (state_of (systemTick pin now b)).
Proof.
  intros (Hs & Hlo & Hhi).
  unfold debounced. rewrite tick_sigma, tick_pressed.
  pose proof (sigma_next_clamped pin b Hs) as Hn.
  unfold is_release_edge, is_press_edge.
  unfold MICROBIT_BUTTON_SIGMA_MIN, MICROBIT_BUTTON_SIGMA_MAX,
    MICROBIT_BUTTON_SIGMA_THRESH_HI, MICROBIT_BUTTON_SIGMA_THRESH_LO in *.
  rewrite Z.gtb_ltb.
  destruct (negb pin);
    [destruct (Z.eqb_spec (sigma b) 12) | destruct (Z.eqb_spec (sigma b) 0)];
    destruct (Z.ltb_spec (sigma_next pin b) 2);
    destruct (Z.ltb_spec 8 (sigma_next pin b));
    destruct (pressed b); cbn [andb negb];
    repeat split; intros; try discriminate; try lia.
  all: try (specialize (Hlo eq_refl)); try (specialize (Hhi eq_refl)); lia.
Qed.

Lemma debounced_step (o : Op) (b : MicroBitButton) :
  debounced b -> debounced (state_of (step o b)).
Proof.
  destruct o as [pin now | config]; [apply debounced_tick | ].
  intros H. exact H.
Qed.

Lemma run_cons (o : Op) (ops : list Op) (b : MicroBitButton) :
  state_of (run (o :: ops) b) = state_of (run ops (state_of (step o b))).
Proof. exact (state_of_bind (step o) (fun _ => run ops) b). Qed.

Lemma debounced_run (ops : list Op) (b : MicroBitButton) :
  debounced b -> debounced (state_of (run ops b)).
Proof.
  revert b. induction ops as [ | o ops IH]; intros b Hb.
  - exact Hb.
  - rewrite run_cons. apply IH, debounced_step, Hb.
Qed.

Lemma debounced_reach (nm ident : Z) (cfg : MicroBitButtonEventConfiguration)
    (ops : list Op) :
  debounced (reach nm ident cfg ops).
Proof. apply debounced_run, debounced_new. Qed.

(** ** Elapsed time *)

Lemma ulong_sub_diag (t : Z) : ulong_sub t t = 0.
Proof. unfold ulong_sub. rewrite Z.sub_diag. reflexivity. Qed.

Lemma ulong_sub_small (now start : Z) :
  0 <= now - start < 2 ^ ULONG_BITS -> ulong_sub now start = now - start.
Proof. intros H. unfold ulong_sub. apply Z.mod_small. exact H. Qed.

Lemma ulong_sub_shift (start d : Z) :
  0 <= d < 2 ^ ULONG_BITS -> ulong_sub (start + d) start = d.
Proof.
  intros H. unfold ulong_sub.
  replace (start + d - start) with d by lia.
  apply Z.mod_small. exact H.
Qed.

(** ** Which events a tick raises *)

Lemma hold_not_on_press (pin : bool) (now : Z) (b : MicroBitButton) :
  is_press_edge pin b = true ->
  hold_condition now (at_hold_check pin now b) = false.
Proof.
  intros Hp. unfold hold_condition.
  rewrite downStartTime_at_hold_check, Hp, ulong_sub_diag.
  apply andb_false_r.
Qed.

Lemma hold_not_on_release (pin : bool) (now : Z) (b : MicroBitButton) :
  is_release_edge pin b = true ->
  hold_condition now (at_hold_check pin now b) = false.
Proof.
  intros Hr. unfold hold_condition.
  rewrite pressed_at_hold_check, Hr. reflexivity.
Qed.

Ltac tick_cases pin now b :=
  rewrite tick_events;
  pose proof (edges_exclusive pin b);
  pose proof (hold_not_on_press pin now b);
  pose proof (hold_not_on_release pin now b);
  destruct (is_press_edge pin b);
  destruct (is_release_edge pin b);
  destruct (hold_condition now (at_hold_check pin now b));
  destruct (eventConfiguration b);
  try destruct (ulong_sub now (downStartTime b)
                >=? MICROBIT_BUTTON_LONG_CLICK_TIME);
  try discriminate; try reflexivity.

Lemma count_DOWN (pin : bool) (now : Z) (b : MicroBitButton) :
  count_kind MICROBIT_BUTTON_EVT_DOWN (events_of (systemTick pin now b))
  = if is_press_edge pin b then 1%nat else 0%nat.
Proof. tick_cases pin now b. Qed.

Lemma count_UP (pin : bool) (now : Z) (b : MicroBitButton) :
  count_kind MICROBIT_BUTTON_EVT_UP (events_of (systemTick pin now b))
  = if is_release_edge pin b then 1%nat else 0%nat.
Proof. tick_cases pin now b. Qed.

Lemma count_HOLD (pin : bool) (now : Z) (b : MicroBitButton) :
  count_kind MICROBIT_BUTTON_EVT_HOLD (events_of (systemTick pin now b))
  = if hold_condition now (at_hold_check pin now b) then 1%nat else 0%nat.
Proof. tick_cases pin now b. Qed.

Lemma count_CLICK (pin : bool) (now : Z) (b : MicroBitButton) :
  count_kind MICROBIT_BUTTON_EVT_CLICK (events_of (systemTick pin now b))
  = if is_release_edge pin b
       && config_eqb (eventConfiguration b) MICROBIT_BUTTON_ALL_EVENTS
       && negb (ulong_sub now (downStartTime b)
                >=? MICROBIT_BUTTON_LONG_CLICK_TIME)
    then 1%nat else 0%nat.
Proof. tick_cases pin now b. Qed.

Lemma count_LONG_CLICK (pin : bool) (now : Z) (b : MicroBitButton) :
  count_kind MICROBIT_BUTTON_EVT_LONG_CLICK (events_of (systemTick pin now b))
  = if is_release_edge pin b
       && config_eqb (eventConfiguration b) MICROBIT_BUTTON_ALL_EVENTS
       && (ulong_sub now (downStartTime b)
           >=? MICROBIT_BUTTON_LONG_CLICK_TIME)
    then 1%nat else 0%nat.
Proof. tick_cases pin now b. Qed.

(** ** The integrator *)

(** C1.  From a new button (integrator 0), after any sequence of calls the
    integrator is within [SIGMA_MIN, SIGMA_MAX] = [0, 12], and so it is after
    one more tick: that tick adds 1 when the input is asserted (pin low)
    unless the integrator is 12, and subtracts 1 when it is deasserted unless
    the integrator is 0. *)
Theorem integrator_clamped (nm ident : Z)
    (cfg : MicroBitButtonEventConfiguration) (ops : list Op)
    (pin : bool) (now : Z) :
  sigma (MicroBitButton_new nm ident cfg) = 0
  /\ MICROBIT_BUTTON_SIGMA_MIN <= sigma (reach nm ident cfg ops)
     <= MICROBIT_BUTTON_SIGMA_MAX
  /\ MICROBIT_BUTTON_SIGMA_MIN
     <= sigma (state_of (systemTick pin now (reach nm ident cfg ops)))
     <= MICROBIT_BUTTON_SIGMA_MAX
  /\ sigma (state_of (systemTick pin now (reach nm ident cfg ops)))
     = if negb pin
       then if sigma (reach nm ident cfg ops) =? 12
            then 12 else sigma (reach nm ident cfg ops) + 1
       else if sigma (reach nm ident cfg ops) =? 0
            then 0 else sigma (reach nm ident cfg ops) - 1.
Proof.
  pose proof (debounced_reach nm ident cfg ops) as Hb.
  pose proof (debounced_tick pin now _ Hb) as (Hs' & _).
  destruct Hb as (Hs & _).
  repeat split; try apply Hs; try apply Hs'.
  rewrite tick_sigma. apply sigma_next_clamped, Hs.
Qed.

(** ** Hysteresis of the pressed flag *)

(** C2.  On any tick taken in a reachable state: if pressed goes from false
    to true, the integrator went from at most 8 to more than 8; if pressed
    goes from true to false, the integrator went from at least 2 to less
    than 2; and if the integrator is within [2, 8]
    after the tick, pressed is what it was before the tick. *)
Theorem pressed_hysteresis (nm ident : Z)
    (cfg : MicroBitButtonEventConfiguration) (ops : list Op)
    (pin : bool) (now : Z) :
  (pressed (reach nm ident cfg ops) = false ->
   pressed (state_of (systemTick pin now (reach nm ident cfg ops))) = true ->
   sigma (reach nm ident cfg ops) <= MICROBIT_BUTTON_SIGMA_THRESH_HI
   /\ MICROBIT_BUTTON_SIGMA_THRESH_HI
      < sigma (state_of (systemTick pin now (reach nm ident cfg ops))))
  /\ (pressed (reach nm ident cfg ops) = true ->
      pressed (state_of (systemTick pin now (reach nm ident cfg ops))) = false ->
      MICROBIT_BUTTON_SIGMA_THRESH_LO <= sigma (reach nm ident cfg ops)
      /\ sigma (state_of (systemTick pin now (reach nm ident cfg ops)))
         < MICROBIT_BUTTON_SIGMA_THRESH_LO)
  /\ (MICROBIT_BUTTON_SIGMA_THRESH_LO
      <= sigma (state_of (systemTick pin now (reach nm ident cfg ops)))
      <= MICROBIT_BUTTON_SIGMA_THRESH_HI ->
      pressed (state_of (systemTick pin now (reach nm ident cfg ops)))
      = pressed (reach nm ident cfg ops)).
Proof.
  pose proof (debounced_reach nm ident cfg ops) as (Hs & Hlo & Hhi).
  set (b := reach nm ident cfg ops) in *.
  rewrite tick_sigma, tick_pressed.
  pose proof (sigma_next_clamped pin b Hs) as Hn.
  unfold is_release_edge, is_press_edge.
  unfold MICROBIT_BUTTON_SIGMA_MIN, MICROBIT_BUTTON_SIGMA_MAX,
    MICROBIT_BUTTON_SIGMA_THRESH_HI, MICROBIT_BUTTON_SIGMA_THRESH_LO in *.
  rewrite Z.gtb_ltb.
  destruct (negb pin);
    [destruct (Z.eqb_spec (sigma b) 12) | destruct (Z.eqb_spec (sigma b) 0)];
    destruct (Z.ltb_spec (sigma_next pin b) 2);
    destruct (Z.ltb_spec 8 (sigma_next pin b));
    destruct (pressed b); cbn [andb negb];
    repeat split; intros; try discriminate; try reflexivity; try lia.
  all: try (specialize (Hlo eq_refl)); try (specialize (Hhi eq_refl)); lia.
Qed.

Lemma pressed_hysteresis_witness :
  (sigma (reach 0 1 MICROBIT_BUTTON_ALL_EVENTS (ticks false 8 0 6)) <= 8
   /\ 8 < sigma (state_of (systemTick false 48
                   (reach 0 1 MICROBIT_BUTTON_ALL_EVENTS
                      (ticks false 8 0 6)))))
  /\ (2 <= sigma (reach 0 1 MICROBIT_BUTTON_ALL_EVENTS
                   (press_release 9 7 0 6))
      /\ sigma (state_of (systemTick true 96
                  (reach 0 1 MICROBIT_BUTTON_ALL_EVENTS
                     (press_release 9 7 0 6))))
         < 2)
  /\ pressed (state_of (systemTick true 54
                (reach 0 1 MICROBIT_BUTTON_ALL_EVENTS (ticks false 9 0 6))))
     = pressed (reach 0 1 MICROBIT_BUTTON_ALL_EVENTS (ticks false 9 0 6)).
Proof.
  split; [ | split].
  - apply (proj1 (pressed_hysteresis 0 1 MICROBIT_BUTTON_ALL_EVENTS
                    (ticks false 8 0 6) false 48)); reflexivity.
  - apply (proj1 (proj2 (pressed_hysteresis 0 1 MICROBIT_BUTTON_ALL_EVENTS
                           (press_release 9 7 0 6) true 96))); reflexivity.
  - apply (proj2 (proj2 (pressed_hysteresis 0 1 MICROBIT_BUTTON_ALL_EVENTS
                           (ticks false 9 0 6) true 54))).
    vm_compute. split; discriminate.
Defined.

(** C9.  In every state reachable from a new button the pressed flag agrees
    with the thresholds: never integrator > 8 with pressed false, never
    integrator < 2 with pressed true; and what isPressed() returns between
    ticks follows. *)
Theorem pressed_never_lags (nm ident : Z)
    (cfg : MicroBitButtonEventConfiguration) (ops : list Op) :
  ~ (MICROBIT_BUTTON_SIGMA_THRESH_HI < sigma (reach nm ident cfg ops)
     /\ pressed (reach nm ident cfg ops) = false)
  /\ ~ (sigma (reach nm ident cfg ops) < MICROBIT_BUTTON_SIGMA_THRESH_LO
        /\ pressed (reach nm ident cfg ops) = true)
  /\ (MICROBIT_BUTTON_SIGMA_THRESH_HI < sigma (reach nm ident cfg ops) ->
      isPressed (reach nm ident cfg ops) = 1)
  /\ (sigma (reach nm ident cfg ops) < MICROBIT_BUTTON_SIGMA_THRESH_LO ->
      isPressed (reach nm ident cfg ops) = 0).
Proof.
  pose proof (debounced_reach nm ident cfg ops) as (Hs & Hlo & Hhi).
  set (b := reach nm ident cfg ops) in *.
  unfold isPressed. fold (pressed b).
  destruct (pressed b).
  - specialize (Hhi eq_refl).
    repeat split; try reflexivity; try intros [? ?]; try intros ?;
      try discriminate; lia.
  - specialize (Hlo eq_refl).
    repeat split; try reflexivity; try intros [? ?]; try intros ?;
      try discriminate; lia.
Qed.

Lemma pressed_never_lags_witness :
  isPressed (reach 0 1 MICROBIT_BUTTON_ALL_EVENTS (ticks false 9 0 6)) = 1
  /\ isPressed (reach 0 1 MICROBIT_BUTTON_ALL_EVENTS
                  (press_release 9 8 0 6)) = 0.
Proof.
  split.
  - apply (proj1 (proj2 (proj2
      (pressed_never_lags 0 1 MICROBIT_BUTTON_ALL_EVENTS
         (ticks false 9 0 6))))).
    vm_compute. reflexivity.
  - apply (proj2 (proj2 (proj2
      (pressed_never_lags 0 1 MICROBIT_BUTTON_ALL_EVENTS
         (press_release 9 8 0 6))))).
    vm_compute. reflexivity.
Defined.

(** ** The time of the press *)

(** C10.  [downStartTime] is 0 in a new button; a tick writes it exactly when
    it is a press edge, and then with [now]; a tick with a release edge or
    one that raises HOLD leaves it as it was, and so does
    setEventConfiguration. *)
Theorem downStartTime_written_on_press_only (pin : bool) (now : Z)
    (b : MicroBitButton) :
  (forall nm ident cfg, downStartTime (MicroBitButton_new nm ident cfg) = 0)
  /\ downStartTime (state_of (systemTick pin now b))
     = (if is_press_edge pin b then now else downStartTime b)
  /\ (is_release_edge pin b = true ->
      downStartTime (state_of (systemTick pin now b)) = downStartTime b)
  /\ (hold_condition now (at_hold_check pin now b) = true ->
      downStartTime (state_of (systemTick pin now b)) = downStartTime b)
  /\ (forall config,
        downStartTime (state_of (setEventConfiguration config b))
        = downStartTime b).
Proof.
  rewrite tick_downStartTime.
  pose proof (edges_exclusive pin b) as Hx.
  pose proof (hold_not_on_press pin now b) as Hh.
  repeat split; try reflexivity.
  - intros Hr. rewrite Hr, andb_true_r in Hx. rewrite Hx. reflexivity.
  - intros Hc. destruct (is_press_edge pin b); [ | reflexivity].
    rewrite Hh in Hc by reflexivity. discriminate.
Qed.

Lemma downStartTime_written_on_press_only_witness :
  downStartTime
    (state_of (systemTick true 96
       (reach 0 1 MICROBIT_BUTTON_ALL_EVENTS (press_release 9 7 0 6))))
  = 48
  /\ downStartTime
       (state_of (systemTick false 1548
          (reach 0 1 MICROBIT_BUTTON_ALL_EVENTS (ticks false 9 0 6))))
     = 48.
Proof.
  split.
  - apply (proj1 (proj2 (proj2
      (downStartTime_written_on_press_only true 96
         (reach 0 1 MICROBIT_BUTTON_ALL_EVENTS (press_release 9 7 0 6)))))).
    reflexivity.
  - apply (proj1 (proj2 (proj2 (proj2
      (downStartTime_written_on_press_only false 1548
         (reach 0 1 MICROBIT_BUTTON_ALL_EVENTS (ticks false 9 0 6))))))).
    reflexivity.
Defined.

(** ** DOWN and UP *)

Lemma edges_ignore_config (pin : bool)
    (config : MicroBitButtonEventConfiguration) (b : MicroBitButton) :
  is_press_edge pin (state_of (setEventConfiguration config b))
  = is_press_edge pin b
  /\ is_release_edge pin (state_of (setEventConfiguration config b))
     = is_release_edge pin b.
Proof.
  unfold is_press_edge, is_release_edge, pressed.
  rewrite !sigma_next_eq.
  unfold setEventConfiguration. run_block. split; reflexivity.
Qed.

(** C3.  Whatever the event configuration [config] in force, a tick raises
    one DOWN event when it is a press edge (integrator above 8 after the
    update, pressed false before) and none otherwise, one UP event when it is
    a release edge (integrator below 2 after the update, pressed true before)
    and none otherwise; a press edge sets pressed and stores [now] in
    [downStartTime]. *)
Theorem down_up_per_edge (pin : bool) (now : Z)
    (config : MicroBitButtonEventConfiguration) (b : MicroBitButton) :
  count_kind MICROBIT_BUTTON_EVT_DOWN
    (events_of (systemTick pin now (state_of (setEventConfiguration config b))))
  = (if is_press_edge pin b then 1%nat else 0%nat)
  /\ count_kind MICROBIT_BUTTON_EVT_UP
       (events_of
          (systemTick pin now (state_of (setEventConfiguration config b))))
     = (if is_release_edge pin b then 1%nat else 0%nat)
  /\ (is_press_edge pin b = true ->
      downStartTime
        (state_of
           (systemTick pin now (state_of (setEventConfiguration config b))))
      = now
      /\ pressed
           (state_of
              (systemTick pin now (state_of (setEventConfiguration config b))))
         = true).
Proof.
  destruct (edges_ignore_config pin config b) as [Hp Hr].
  rewrite count_DOWN, count_UP, tick_downStartTime, tick_pressed, Hp, Hr.
  split; [reflexivity | split; [reflexivity | intros H]].
  pose proof (edges_exclusive pin b) as Hx.
  rewrite H in Hx |- *. cbn [andb] in Hx. rewrite Hx.
  split; reflexivity.
Qed.

Lemma down_up_per_edge_witness :
  downStartTime
    (state_of
       (systemTick false 48
          (state_of
             (setEventConfiguration MICROBIT_BUTTON_SIMPLE_EVENTS
                (reach 0 1 MICROBIT_BUTTON_ALL_EVENTS (ticks false 8 0 6))))))
  = 48
  /\ pressed
       (state_of
          (systemTick false 48
             (state_of
                (setEventConfiguration MICROBIT_BUTTON_SIMPLE_EVENTS
                   (reach 0 1 MICROBIT_BUTTON_ALL_EVENTS
                      (ticks false 8 0 6))))))
     = true.
Proof.
  apply (proj2 (proj2
    (down_up_per_edge false 48 MICROBIT_BUTTON_SIMPLE_EVENTS
       (reach 0 1 MICROBIT_BUTTON_ALL_EVENTS (ticks false 8 0 6))))).
  reflexivity.
Defined.

(** ** One edge per tick *)

(** C7.  In one tick the press edge and the release edge do not both fire,
    and HOLD is raised with neither: after a press edge [downStartTime] is
    [now], so the elapsed time is 0 and the hold condition is false (as it is
    for any [later] reading of the clock less than 1500 ms after [now]);
    after a release edge pressed is false when the hold condition is
    evaluated, whatever the clock reads. *)
Theorem one_edge_per_tick (pin : bool) (now : Z) (b : MicroBitButton) :
  is_press_edge pin b && is_release_edge pin b = false
  /\ (count_kind MICROBIT_BUTTON_EVT_DOWN (events_of (systemTick pin now b))
      + count_kind MICROBIT_BUTTON_EVT_UP (events_of (systemTick pin now b))
      <= 1)%nat
  /\ (count_kind MICROBIT_BUTTON_EVT_DOWN (events_of (systemTick pin now b))
      + count_kind MICROBIT_BUTTON_EVT_HOLD (events_of (systemTick pin now b))
      <= 1)%nat
  /\ (count_kind MICROBIT_BUTTON_EVT_UP (events_of (systemTick pin now b))
      + count_kind MICROBIT_BUTTON_EVT_HOLD (events_of (systemTick pin now b))
      <= 1)%nat
  /\ (is_press_edge pin b = true ->
      downStartTime (at_hold_check pin now b) = now
      /\ ulong_sub now (downStartTime (at_hold_check pin now b)) = 0
      /\ hold_condition now (at_hold_check pin now b) = false
      /\ forall later,
           ulong_sub later now < MICROBIT_BUTTON_HOLD_TIME ->
           hold_condition later (at_hold_check pin now b) = false)
  /\ (is_release_edge pin b = true ->
      pressed (at_hold_check pin now b) = false
      /\ forall later, hold_condition later (at_hold_check pin now b) = false).
Proof.
  rewrite count_DOWN, count_UP, count_HOLD.
  pose proof (edges_exclusive pin b) as Hx.
  pose proof (hold_not_on_press pin now b) as Hp.
  pose proof (hold_not_on_release pin now b) as Hr.
  rewrite downStartTime_at_hold_check, pressed_at_hold_check.
  split; [exact Hx | ].
  destruct (is_press_edge pin b) eqn:Ep;
    destruct (is_release_edge pin b) eqn:Er;
    try discriminate;
    destruct (hold_condition now (at_hold_check pin now b));
    try (specialize (Hp eq_refl); discriminate);
    try (specialize (Hr eq_refl); discriminate);
    cbn [Nat.add];
    repeat split; intros; try discriminate; try apply ulong_sub_diag;
    try lia.
  all: unfold hold_condition;
    rewrite ?pressed_at_hold_check, ?downStartTime_at_hold_check,
      ?Ep, ?Er; try reflexivity.
  all: match goal with
       | Hl : ulong_sub ?l ?n < _ |- _ =>
           destruct (Z.geb_spec (ulong_sub l n) MICROBIT_BUTTON_HOLD_TIME);
           [lia | apply andb_false_r]
       end.
Qed.

Lemma one_edge_per_tick_witness :
  (downStartTime
     (at_hold_check false 5000
        (reach 0 1 MICROBIT_BUTTON_ALL_EVENTS (ticks false 8 0 6))) = 5000
   /\ ulong_sub 5000
        (downStartTime
           (at_hold_check false 5000
              (reach 0 1 MICROBIT_BUTTON_ALL_EVENTS (ticks false 8 0 6)))) = 0
   /\ hold_condition 5000
        (at_hold_check false 5000
           (reach 0 1 MICROBIT_BUTTON_ALL_EVENTS (ticks false 8 0 6)))
      = false
   /\ forall later,
        ulong_sub later 5000 < MICROBIT_BUTTON_HOLD_TIME ->
        hold_condition later
          (at_hold_check false 5000
             (reach 0 1 MICROBIT_BUTTON_ALL_EVENTS (ticks false 8 0 6)))
        = false)
  /\ (pressed
        (at_hold_check true 5000
           (reach 0 1 MICROBIT_BUTTON_ALL_EVENTS (press_release 9 7 0 6)))
      = false
      /\ forall later,
           hold_condition later
             (at_hold_check true 5000
                (reach 0 1 MICROBIT_BUTTON_ALL_EVENTS (press_release 9 7 0 6)))
           = false).
Proof.
  split.
  - apply (proj1 (proj2 (proj2 (proj2 (proj2
      (one_edge_per_tick false 5000
         (reach 0 1 MICROBIT_BUTTON_ALL_EVENTS (ticks false 8 0 6)))))))).
    reflexivity.
  - apply (proj2 (proj2 (proj2 (proj2 (proj2
      (one_edge_per_tick true 5000
         (reach 0 1 MICROBIT_BUTTON_ALL_EVENTS (press_release 9 7 0 6)))))))).
    reflexivity.
Defined.

(** ** CLICK and LONG_CLICK *)

Lemma release_events (pin : bool) (now : Z) (b : MicroBitButton) :
  is_release_edge pin b = true ->
  kinds (events_of (systemTick pin now b))
  = MICROBIT_BUTTON_EVT_UP
    :: match eventConfiguration b with
       | MICROBIT_BUTTON_ALL_EVENTS =>
           [if ulong_sub now (downStartTime b)
                 >=? MICROBIT_BUTTON_LONG_CLICK_TIME
            then MICROBIT_BUTTON_EVT_LONG_CLICK
            else MICROBIT_BUTTON_EVT_CLICK]
       | MICROBIT_BUTTON_SIMPLE_EVENTS => []
       end.
Proof.
  intros Hr. rewrite tick_events.
  pose proof (edges_exclusive pin b) as Hx.
  rewrite (hold_not_on_release pin now b Hr).
  rewrite Hr, andb_true_r in Hx. rewrite Hx, Hr.
  destruct (eventConfiguration b); reflexivity.
Qed.

(** C4.  On a tick with a release edge the events are UP alone when the
    configuration is SIMPLE_EVENTS, and UP followed by exactly one of
    LONG_CLICK and CLICK when it is ALL_EVENTS: LONG_CLICK when the elapsed
    time [now - downStartTime] (on [unsigned long]) is at least 1000, CLICK
    otherwise.  So a press of 1000 ms gives LONG_CLICK, one of 999 ms gives
    CLICK, and one of 1500 ms or more gives LONG_CLICK, with no HOLD on the
    release tick, whether HOLD was raised before or not. *)
Theorem release_classification (pin : bool) (now : Z) (b : MicroBitButton) :
  is_release_edge pin b = true ->
  (eventConfiguration b = MICROBIT_BUTTON_SIMPLE_EVENTS ->
   kinds (events_of (systemTick pin now b)) = [MICROBIT_BUTTON_EVT_UP])
  /\ (eventConfiguration b = MICROBIT_BUTTON_ALL_EVENTS ->
      kinds (events_of (systemTick pin now b))
      = [MICROBIT_BUTTON_EVT_UP;
         if ulong_sub now (downStartTime b)
              >=? MICROBIT_BUTTON_LONG_CLICK_TIME
         then MICROBIT_BUTTON_EVT_LONG_CLICK
         else MICROBIT_BUTTON_EVT_CLICK])
  /\ (count_kind MICROBIT_BUTTON_EVT_CLICK (events_of (systemTick pin now b))
      + count_kind MICROBIT_BUTTON_EVT_LONG_CLICK
          (events_of (systemTick pin now b))
      = if config_eqb (eventConfiguration b) MICROBIT_BUTTON_ALL_EVENTS
        then 1 else 0)%nat
  /\ (eventConfiguration b = MICROBIT_BUTTON_ALL_EVENTS ->
      now = downStartTime b + 1000 ->
      kinds (events_of (systemTick pin now b))
      = [MICROBIT_BUTTON_EVT_UP; MICROBIT_BUTTON_EVT_LONG_CLICK])
  /\ (eventConfiguration b = MICROBIT_BUTTON_ALL_EVENTS ->
      now = downStartTime b + 999 ->
      kinds (events_of (systemTick pin now b))
      = [MICROBIT_BUTTON_EVT_UP; MICROBIT_BUTTON_EVT_CLICK])
  /\ (eventConfiguration b = MICROBIT_BUTTON_ALL_EVENTS ->
      forall d, 1500 <= d < 2 ^ ULONG_BITS ->
      now = downStartTime b + d ->
      kinds (events_of (systemTick pin now b))
      = [MICROBIT_BUTTON_EVT_UP; MICROBIT_BUTTON_EVT_LONG_CLICK]).
Proof.
  intros Hr.
  rewrite count_CLICK, count_LONG_CLICK, (release_events pin now b Hr), Hr.
  split; [intros ->; reflexivity | ].
  split; [intros ->; reflexivity | ].
  split.
  { destruct (eventConfiguration b); cbn [config_eqb andb];
      [reflexivity | ].
    destruct (_ >=? _); reflexivity. }
  split; [ | split].
  - intros -> ->. rewrite ulong_sub_shift; [reflexivity | ].
    unfold ULONG_BITS. lia.
  - intros -> ->. rewrite ulong_sub_shift; [reflexivity | ].
    unfold ULONG_BITS. lia.
  - intros -> d Hd ->. rewrite ulong_sub_shift by lia.
    unfold MICROBIT_BUTTON_LONG_CLICK_TIME.
    destruct (Z.geb_spec d 1000); [reflexivity | lia].
Qed.

Lemma release_classification_witness :
  kinds (events_of (systemTick true 1000
           (reach 0 1 MICROBIT_BUTTON_ALL_EVENTS (press_release 9 7 0 0))))
  = [MICROBIT_BUTTON_EVT_UP; MICROBIT_BUTTON_EVT_LONG_CLICK]
  /\ kinds (events_of (systemTick true 1047
              (reach 0 1 MICROBIT_BUTTON_ALL_EVENTS (press_release 9 7 48 0))))
     = [MICROBIT_BUTTON_EVT_UP; MICROBIT_BUTTON_EVT_CLICK]
  /\ kinds (events_of (systemTick true 2000
              (reach 0 1 MICROBIT_BUTTON_ALL_EVENTS (press_release 9 7 0 0))))
     = [MICROBIT_BUTTON_EVT_UP; MICROBIT_BUTTON_EVT_LONG_CLICK]
  /\ kinds (events_of (systemTick true 2000
              (reach 0 1 MICROBIT_BUTTON_SIMPLE_EVENTS
                 (press_release 9 7 0 0))))
     = [MICROBIT_BUTTON_EVT_UP].
Proof.
  split; [ | split; [ | split]].
  - assert (Hr : is_release_edge true
                   (reach 0 1 MICROBIT_BUTTON_ALL_EVENTS
                      (press_release 9 7 0 0)) = true) by reflexivity.
    pose proof (release_classification true 1000 _ Hr)
      as (_ & _ & _ & H & _).
    apply H; reflexivity.
  - assert (Hr : is_release_edge true
                   (reach 0 1 MICROBIT_BUTTON_ALL_EVENTS
                      (press_release 9 7 48 0)) = true) by reflexivity.
    pose proof (release_classification true 1047 _ Hr)
      as (_ & _ & _ & _ & H & _).
    apply H; reflexivity.
  - assert (Hr : is_release_edge true
                   (reach 0 1 MICROBIT_BUTTON_ALL_EVENTS
                      (press_release 9 7 0 0)) = true) by reflexivity.
    pose proof (release_classification true 2000 _ Hr)
      as (_ & _ & _ & _ & _ & H).
    apply (H eq_refl 2000); [unfold ULONG_BITS; lia | reflexivity].
  - assert (Hr : is_release_edge true
                   (reach 0 1 MICROBIT_BUTTON_SIMPLE_EVENTS
                      (press_release 9 7 0 0)) = true) by reflexivity.
    pose proof (release_classification true 2000 _ Hr) as (H & _).
    apply H; reflexivity.
Defined.

(** ** HOLD *)

Lemma events_run_cons (o : Op) (ops : list Op) (b : MicroBitButton) :
  events_of (run (o :: ops) b)
  = events_of (step o b) ++ events_of (run ops (state_of (step o b))).
Proof. exact (events_of_bind (step o) (fun _ => run ops) b). Qed.

Lemma count_kind_app (k : Z) (l1 l2 : list MicroBitEvent) :
  count_kind k (l1 ++ l2) = (count_kind k l1 + count_kind k l2)%nat.
Proof. unfold count_kind. rewrite filter_app. apply length_app. Qed.

Lemma hold_condition_pre (pin : bool) (now : Z) (b : MicroBitButton) :
  hold_condition now (at_hold_check pin now b)
  = pressed b && negb (is_release_edge pin b) && negb (holdTriggered b)
    && (ulong_sub now (downStartTime b) >=? MICROBIT_BUTTON_HOLD_TIME).
Proof.
  unfold hold_condition.
  rewrite pressed_at_hold_check, holdTriggered_at_hold_check,
    downStartTime_at_hold_check.
  destruct (is_release_edge pin b).
  - cbn [negb andb]. rewrite andb_false_r. reflexivity.
  - destruct (is_press_edge pin b) eqn:Hp; [ | rewrite andb_true_r; reflexivity].
    rewrite ulong_sub_diag. unfold is_press_edge in Hp.
    apply andb_prop in Hp as [_ Hp]. apply negb_true_iff in Hp.
    rewrite Hp. apply andb_false_r.
Qed.

Lemma hold_ignores_config (pin : bool) (now : Z)
    (config : MicroBitButtonEventConfiguration) (b : MicroBitButton) :
  hold_condition now
    (at_hold_check pin now (state_of (setEventConfiguration config b)))
  = hold_condition now (at_hold_check pin now b).
Proof.
  rewrite !hold_condition_pre.
  destruct (edges_ignore_config pin config b) as [_ ->].
  reflexivity.
Qed.

(** Without a release edge, HOLD is raised at most once, and not at all once
    the hold flag is set. *)
Lemma hold_budget (ops : list Op) (b : MicroBitButton) :
  count_kind MICROBIT_BUTTON_EVT_UP (events_of (run ops b)) = 0%nat ->
  (count_kind MICROBIT_BUTTON_EVT_HOLD (events_of (run ops b))
   <= if holdTriggered b then 0 else 1)%nat.
Proof.
  revert b. induction ops as [ | o ops IH]; intros b.
  - intros _. cbn. destruct (holdTriggered b); lia.
  - rewrite events_run_cons, !count_kind_app. intros Hup.
    apply Nat.eq_add_0 in Hup as [Hup1 Hup2].
    specialize (IH _ Hup2).
    destruct o as [pin now | config].
    + cbn [step] in *. rewrite count_UP in Hup1. rewrite count_HOLD.
      rewrite tick_holdTriggered, holdTriggered_at_hold_check in IH.
      pose proof (hold_condition_pre pin now b) as Hc.
      destruct (is_release_edge pin b); [discriminate | ].
      destruct (hold_condition now (at_hold_check pin now b));
        destruct (holdTriggered b); cbn [orb] in IH.
      * rewrite !andb_false_r in Hc. discriminate.
      * lia.
      * lia.
      * lia.
    + cbn [step] in *. exact IH.
Qed.

(** C5.  A tick raises HOLD (once) exactly when, at the hold check of the
    tick, pressed is true, holdTriggered is false and the elapsed time
    [now - downStartTime] is at least 1500; in terms of the state before the
    tick: pressed, not released by this tick, hold flag clear, 1500 ms
    elapsed.  The event configuration plays no part.  The tick then leaves
    holdTriggered set, so over any calls without a release edge at most one
    HOLD is raised; a release edge clears pressed and holdTriggered
    together, and a later press raises HOLD again ([hold_twice]). *)
Theorem hold_once_per_press (pin : bool) (now : Z)
    (config : MicroBitButtonEventConfiguration) (b : MicroBitButton) :
  count_kind MICROBIT_BUTTON_EVT_HOLD
    (events_of (systemTick pin now (state_of (setEventConfiguration config b))))
  = (if hold_condition now (at_hold_check pin now b) then 1%nat else 0%nat)
  /\ hold_condition now (at_hold_check pin now b)
     = pressed (at_hold_check pin now b)
       && negb (holdTriggered (at_hold_check pin now b))
       && (ulong_sub now (downStartTime (at_hold_check pin now b))
           >=? MICROBIT_BUTTON_HOLD_TIME)
  /\ hold_condition now (at_hold_check pin now b)
     = pressed b && negb (is_release_edge pin b) && negb (holdTriggered b)
       && (ulong_sub now (downStartTime b) >=? MICROBIT_BUTTON_HOLD_TIME)
  /\ (hold_condition now (at_hold_check pin now b) = true ->
      holdTriggered (state_of (systemTick pin now b)) = true)
  /\ (forall ops,
        count_kind MICROBIT_BUTTON_EVT_UP (events_of (run ops b)) = 0%nat ->
        (count_kind MICROBIT_BUTTON_EVT_HOLD (events_of (run ops b)) <= 1)%nat)
  /\ (is_release_edge pin b = true ->
      pressed (state_of (systemTick pin now b)) = false
      /\ holdTriggered (state_of (systemTick pin now b)) = false)
  /\ count_kind MICROBIT_BUTTON_EVT_HOLD
       (events_of
          (run hold_twice (MicroBitButton_new 0 1 MICROBIT_BUTTON_ALL_EVENTS)))
     = 2%nat.
Proof.
  rewrite count_HOLD, hold_ignores_config.
  split; [reflexivity | ].
  split; [reflexivity | ].
  split; [apply hold_condition_pre | ].
  split.
  { intros Hc. rewrite tick_holdTriggered, Hc. apply orb_true_r. }
  split.
  { intros ops Hup. pose proof (hold_budget ops b Hup) as Hb.
    destruct (holdTriggered b); lia. }
  split.
  { intros Hr.
    rewrite tick_pressed, tick_holdTriggered, holdTriggered_at_hold_check,
      (hold_not_on_release pin now b Hr), Hr.
    split; reflexivity. }
  vm_compute. reflexivity.
Qed.

Lemma hold_once_per_press_witness :
  holdTriggered
    (state_of (systemTick false 1500
       (reach 0 1 MICROBIT_BUTTON_SIMPLE_EVENTS (ticks false 9 0 0))))
  = true
  /\ (count_kind MICROBIT_BUTTON_EVT_HOLD
        (events_of
           (run (ticks false 5 1500 100)
              (reach 0 1 MICROBIT_BUTTON_SIMPLE_EVENTS (ticks false 9 0 0))))
      <= 1)%nat
  /\ (pressed
        (state_of (systemTick true 1700
           (reach 0 1 MICROBIT_BUTTON_SIMPLE_EVENTS
              (ticks false 9 0 0 ++ Tick false 1500 :: ticks true 8 1600 0))))
      = false
      /\ holdTriggered
           (state_of (systemTick true 1700
              (reach 0 1 MICROBIT_BUTTON_SIMPLE_EVENTS
                 (ticks false 9 0 0
                  ++ Tick false 1500 :: ticks true 8 1600 0))))
         = false).
Proof.
  split; [ | split].
  - apply (proj1 (proj2 (proj2 (proj2
      (hold_once_per_press false 1500 MICROBIT_BUTTON_SIMPLE_EVENTS
         (reach 0 1 MICROBIT_BUTTON_SIMPLE_EVENTS (ticks false 9 0 0))))))).
    reflexivity.
  - apply (proj1 (proj2 (proj2 (proj2 (proj2
      (hold_once_per_press false 1500 MICROBIT_BUTTON_SIMPLE_EVENTS
         (reach 0 1 MICROBIT_BUTTON_SIMPLE_EVENTS (ticks false 9 0 0)))))))).
    reflexivity.
  - apply (proj1 (proj2 (proj2 (proj2 (proj2 (proj2
      (hold_once_per_press true 1700 MICROBIT_BUTTON_SIMPLE_EVENTS
         (reach 0 1 MICROBIT_BUTTON_SIMPLE_EVENTS
            (ticks false 9 0 0
             ++ Tick false 1500 :: ticks true 8 1600 0))))))))).
    reflexivity.
Defined.

(** ** SIMPLE_EVENTS *)

Lemma simple_tick_kinds (pin : bool) (now : Z) (b : MicroBitButton)
    (e : MicroBitEvent) :
  eventConfiguration b = MICROBIT_BUTTON_SIMPLE_EVENTS ->
  In e (events_of (systemTick pin now b)) ->
  value e = MICROBIT_BUTTON_EVT_DOWN \/ value e = MICROBIT_BUTTON_EVT_UP
  \/ value e = MICROBIT_BUTTON_EVT_HOLD.
Proof.
  intros Hcfg. rewrite tick_events, Hcfg.
  destruct (is_press_edge pin b); destruct (is_release_edge pin b);
    destruct (hold_condition now (at_hold_check pin now b));
    cbn [app In]; intros Hin;
    repeat (destruct Hin as [<- | Hin]; [cbn [value evt]; tauto | ]);
    destruct Hin.
Qed.

(** C6, as stated, fails: in SIMPLE_EVENTS mode a press held for 1500 ms
    raises HOLD, which is neither DOWN nor UP. *)
Lemma simple_mode_hold_counterexample :
  stays_simple simple_hold = true
  /\ kinds (events_of
              (run simple_hold
                 (MicroBitButton_new 0 1 MICROBIT_BUTTON_SIMPLE_EVENTS)))
     = [MICROBIT_BUTTON_EVT_DOWN; MICROBIT_BUTTON_EVT_HOLD]
  /\ ~ (forall e,
          In e (events_of
                  (run simple_hold
                     (MicroBitButton_new 0 1 MICROBIT_BUTTON_SIMPLE_EVENTS))) ->
          value e = MICROBIT_BUTTON_EVT_DOWN
          \/ value e = MICROBIT_BUTTON_EVT_UP).
Proof.
  split; [reflexivity | split; [reflexivity | ]].
  intros H.
  specialize (H (mkEvent 1 MICROBIT_BUTTON_EVT_HOLD)).
  destruct H as [H | H]; try discriminate H.
  vm_compute. right. left. reflexivity.
Qed.

(** C6, amended.  From a button whose configuration is SIMPLE_EVENTS, over
    any sequence of ticks (and of calls that set SIMPLE_EVENTS again), every
    event raised is DOWN, UP or HOLD: no CLICK and no LONG_CLICK is raised. *)
Theorem simple_mode_events (b : MicroBitButton) (ops : list Op)
    (e : MicroBitEvent) :
  eventConfiguration b = MICROBIT_BUTTON_SIMPLE_EVENTS ->
  stays_simple ops = true ->
  In e (events_of (run ops b)) ->
  (value e = MICROBIT_BUTTON_EVT_DOWN \/ value e = MICROBIT_BUTTON_EVT_UP
   \/ value e = MICROBIT_BUTTON_EVT_HOLD)
  /\ value e <> MICROBIT_BUTTON_EVT_CLICK
  /\ value e <> MICROBIT_BUTTON_EVT_LONG_CLICK.
Proof.
  intros Hcfg Hops Hin.
  assert (Hk : value e = MICROBIT_BUTTON_EVT_DOWN
               \/ value e = MICROBIT_BUTTON_EVT_UP
               \/ value e = MICROBIT_BUTTON_EVT_HOLD).
  { revert b Hcfg Hops Hin.
    induction ops as [ | o ops IH]; intros b Hcfg Hops Hin.
    - destruct Hin.
    - rewrite events_run_cons in Hin. apply in_app_or in Hin.
      cbn [stays_simple forallb] in Hops.
      apply andb_prop in Hops as [Ho Hops].
      destruct Hin as [Hin | Hin].
      + destruct o as [pin now | config].
        * exact (simple_tick_kinds pin now b e Hcfg Hin).
        * destruct Hin.
      + apply (IH (state_of (step o b))); [ | exact Hops | exact Hin].
        destruct o as [pin now | config].
        * cbn [step]. rewrite tick_eventConfiguration. exact Hcfg.
        * destruct config; [reflexivity | discriminate Ho]. }
  split; [exact Hk | ].
  split; intros Heq; rewrite Heq in Hk;
    destruct Hk as [Hk | [Hk | Hk]]; discriminate Hk.
Qed.

Lemma simple_mode_events_witness :
  (value (mkEvent 1 MICROBIT_BUTTON_EVT_HOLD) = MICROBIT_BUTTON_EVT_DOWN
   \/ value (mkEvent 1 MICROBIT_BUTTON_EVT_HOLD) = MICROBIT_BUTTON_EVT_UP
   \/ value (mkEvent 1 MICROBIT_BUTTON_EVT_HOLD) = MICROBIT_BUTTON_EVT_HOLD)
  /\ value (mkEvent 1 MICROBIT_BUTTON_EVT_HOLD) <> MICROBIT_BUTTON_EVT_CLICK
  /\ value (mkEvent 1 MICROBIT_BUTTON_EVT_HOLD)
     <> MICROBIT_BUTTON_EVT_LONG_CLICK.
Proof.
  apply (simple_mode_events
           (MicroBitButton_new 0 1 MICROBIT_BUTTON_SIMPLE_EVENTS)
           (simple_hold ++ SetConfig MICROBIT_BUTTON_SIMPLE_EVENTS
              :: ticks true 9 1600 6)
           (mkEvent 1 MICROBIT_BUTTON_EVT_HOLD)).
  - reflexivity.
  - reflexivity.
  - vm_compute. right. left. reflexivity.
Defined.

(** ** Shifting the clock

    A scenario behaves the same whenever it starts. *)

Lemma ulong_sub_shift_both (a c d : Z) :
  ulong_sub (a + d) (c + d) = ulong_sub a c.
Proof. unfold ulong_sub. f_equal. lia. Qed.

Lemma tick_state_eq (pin : bool) (now : Z) (b : MicroBitButton) :
  state_of (systemTick pin now b)
  = mkButton (id b)
      (if hold_condition now (at_hold_check pin now b)
       then wrap8 (Z.lor (status (at_hold_check pin now b))
                     MICROBIT_BUTTON_STATE_HOLD_TRIGGERED)
       else status (at_hold_check pin now b))
      (name b)
      (if is_press_edge pin b then now else downStartTime b)
      (sigma_next pin b)
      (eventConfiguration b).
Proof.
  rewrite tick_state, hold_check_state.
  destruct (hold_condition now (at_hold_check pin now b));
    rewrite at_hold_check_eq; reflexivity.
Qed.

Lemma edges_ignore_downStartTime (pin : bool) (b : MicroBitButton) (x : Z) :
  is_press_edge pin (with_downStartTime b x) = is_press_edge pin b
  /\ is_release_edge pin (with_downStartTime b x) = is_release_edge pin b.
Proof.
  unfold is_press_edge, is_release_edge, pressed.
  rewrite !sigma_next_eq. split; reflexivity.
Qed.

Lemma tick_shift (pin : bool) (now d : Z) (b : MicroBitButton) (x : Z) :
  (pressed b = true -> x = downStartTime b + d) ->
  events_of (systemTick pin (now + d) (with_downStartTime b x))
  = events_of (systemTick pin now b)
  /\ exists x',
       state_of (systemTick pin (now + d) (with_downStartTime b x))
       = with_downStartTime (state_of (systemTick pin now b)) x'
       /\ (pressed (state_of (systemTick pin now b)) = true ->
           x' = downStartTime (state_of (systemTick pin now b)) + d).
Proof.
  intros Hx.
  destruct (edges_ignore_downStartTime pin b x) as [Hp Hr].
  assert (Hh : hold_condition (now + d)
                 (at_hold_check pin (now + d) (with_downStartTime b x))
               = hold_condition now (at_hold_check pin now b)).
  { rewrite !hold_condition_pre, Hr.
    change (pressed (with_downStartTime b x)) with (pressed b).
    change (holdTriggered (with_downStartTime b x)) with (holdTriggered b).
    change (downStartTime (with_downStartTime b x)) with x.
    destruct (pressed b); [ | reflexivity].
    rewrite (Hx eq_refl), ulong_sub_shift_both. reflexivity. }
  split.
  - rewrite !tick_events, Hp, Hr, Hh.
    change (eventConfiguration (with_downStartTime b x))
      with (eventConfiguration b).
    change (downStartTime (with_downStartTime b x)) with x.
    f_equal. f_equal.
    destruct (is_release_edge pin b) eqn:Er; [ | reflexivity].
    unfold is_release_edge in Er. apply andb_prop in Er as [_ Er].
    rewrite (Hx Er), ulong_sub_shift_both. reflexivity.
  - exists (if is_press_edge pin b then now + d else x).
    rewrite tick_pressed, tick_downStartTime, !tick_state_eq, Hp, Hh.
    assert (Hst : status (at_hold_check pin (now + d)
                            (with_downStartTime b x))
                  = status (at_hold_check pin now b)).
    { rewrite !at_hold_check_eq, Hp, Hr. reflexivity. }
    rewrite Hst, !sigma_next_eq. split; [reflexivity | ].
    destruct (is_release_edge pin b); [discriminate | ].
    destruct (is_press_edge pin b); [reflexivity | exact Hx].
Qed.

Lemma trace_shift (d : Z) (ops : list Op) (b : MicroBitButton) (x : Z) :
  (pressed b = true -> x = downStartTime b + d) ->
  trace (map (shift_op d) ops) (with_downStartTime b x) = trace ops b.
Proof.
  revert b x. induction ops as [ | o ops IH]; intros b x Hx; [reflexivity | ].
  cbn [map trace].
  destruct o as [pin now | config]; cbn [shift_op step].
  - destruct (tick_shift pin now d b x Hx) as (He & x' & Hs & Hx').
    rewrite He, Hs, (IH _ x' Hx'). reflexivity.
  - change (state_of (setEventConfiguration config (with_downStartTime b x)))
      with (with_downStartTime
              (state_of (setEventConfiguration config b)) x).
    rewrite (IH (state_of (setEventConfiguration config b)) x Hx).
    reflexivity.
Qed.

Lemma ticks_shift (pin : bool) (n : nat) (t0 period d : Z) :
  ticks pin n (t0 + d) period = map (shift_op d) (ticks pin n t0 period).
Proof.
  revert t0. induction n as [ | n IH]; intros t0; [reflexivity | ].
  cbn [ticks map shift_op]. f_equal.
  replace (t0 + d + period) with (t0 + period + d) by lia.
  apply IH.
Qed.

Lemma press_release_shift (n m : nat) (t0 period : Z) :
  press_release n m t0 period
  = map (shift_op t0) (press_release n m 0 period).
Proof.
  unfold press_release. rewrite map_app.
  rewrite <- !ticks_shift. f_equal. f_equal. lia.
Qed.

(** ** The press and release scenario *)

(** C8.  A new button in ALL_EVENTS mode, the input asserted for 20 ticks and
    then deasserted for 20 ticks, 6 ms apart from any starting time [t0]:
    the integrator climbs to 12 and falls back to 0; the 9th tick, where it
    first exceeds 8, raises DOWN; the 31st tick, where it falls below 2,
    raises UP and then CLICK; no other tick raises anything, so HOLD is never
    raised. *)
Theorem press_release_scenario (nm ident t0 : Z) :
  trace (press_release 20 20 t0 6)
        (MicroBitButton_new nm ident MICROBIT_BUTTON_ALL_EVENTS)
  = [(1, []); (2, []); (3, []); (4, []); (5, []); (6, []); (7, []); (8, []);
     (9, [mkEvent ident MICROBIT_BUTTON_EVT_DOWN]);
     (10, []); (11, []); (12, []); (12, []); (12, []); (12, []); (12, []);
     (12, []); (12, []); (12, []); (12, []);
     (11, []); (10, []); (9, []); (8, []); (7, []); (6, []); (5, []);
     (4, []); (3, []); (2, []);
     (1, [mkEvent ident MICROBIT_BUTTON_EVT_UP;
          mkEvent ident MICROBIT_BUTTON_EVT_CLICK]);
     (0, []); (0, []); (0, []); (0, []); (0, []); (0, []); (0, []); (0, []);
     (0, [])].
Proof.
  rewrite press_release_shift.
  change (MicroBitButton_new nm ident MICROBIT_BUTTON_ALL_EVENTS)
    with (with_downStartTime
            (MicroBitButton_new nm ident MICROBIT_BUTTON_ALL_EVENTS) 0).
  rewrite trace_shift by discriminate.
  vm_compute. reflexivity.
Qed.

(** * Further properties of the driver *)

(** ** The flag byte *)

Lemma status_ok_press_edge (now : Z) (b : MicroBitButton) :
  status_ok b -> status_ok (state_of (press_edge now b)).
Proof.
  intros Hb. rewrite press_edge_state.
  destruct (_ && _); [ | exact Hb].
  unfold status_ok in *. fields.
  destruct Hb as [-> | [-> | ->]]; vm_compute; tauto.
Qed.

Lemma status_ok_release_edge (now : Z) (b : MicroBitButton) :
  status_ok b -> status_ok (state_of (release_edge now b)).
Proof.
  intros Hb. rewrite release_edge_state.
  destruct (_ && _); [ | exact Hb].
  left. reflexivity.
Qed.

Lemma status_ok_hold_check (now : Z) (b : MicroBitButton) :
  status_ok b -> status_ok (state_of (hold_check now b)).
Proof.
  intros Hb. rewrite hold_check_state.
  destruct (hold_condition now b) eqn:Hc; [ | exact Hb].
  unfold hold_condition, pressed, holdTriggered in Hc.
  unfold status_ok in *. fields.
  destruct Hb as [H | [H | H]]; rewrite H in Hc |- *.
  - discriminate Hc.
  - vm_compute. tauto.
  - discriminate Hc.
Qed.

Lemma status_ok_tick (pin : bool) (now : Z) (b : MicroBitButton) :
  status_ok b -> status_ok (state_of (systemTick pin now b)).
Proof.
  intros Hb. unfold systemTick. rewrite !state_of_bind.
  apply status_ok_hold_check, status_ok_release_edge, status_ok_press_edge.
  rewrite integrate_state. exact Hb.
Qed.

Lemma status_ok_run (ops : list Op) (b : MicroBitButton) :
  status_ok b -> status_ok (state_of (run ops b)).
Proof.
  revert b. induction ops as [ | o ops IH]; intros b Hb; [exact Hb | ].
  rewrite run_cons. apply IH.
  destruct o as [pin now | config]; [apply status_ok_tick | ]; exact Hb.
Qed.

Lemma status_ok_reach (nm ident : Z) (cfg : MicroBitButtonEventConfiguration)
    (ops : list Op) :
  status_ok (reach nm ident cfg ops).
Proof. apply status_ok_run. left. reflexivity. Qed.

(** X1.  Whatever calls a button has received since its construction, its
    flag byte is 0, STATE or STATE | STATE_HOLD_TRIGGERED: the hold flag is
    never set without the pressed flag, and the STATE_CLICK and
    STATE_LONG_CLICK bits are never set. *)
Theorem status_reachable (nm ident : Z)
    (cfg : MicroBitButtonEventConfiguration) (ops : list Op) :
  (status (reach nm ident cfg ops) = 0
   \/ status (reach nm ident cfg ops) = 1
   \/ status (reach nm ident cfg ops) = 3)
  /\ holdTriggered (reach nm ident cfg ops)
     && negb (pressed (reach nm ident cfg ops)) = false
  /\ test (status (reach nm ident cfg ops)) MICROBIT_BUTTON_STATE_CLICK
     = false
  /\ test (status (reach nm ident cfg ops)) MICROBIT_BUTTON_STATE_LONG_CLICK
     = false.
Proof.
  pose proof (status_ok_reach nm ident cfg ops) as Hb.
  unfold holdTriggered, pressed.
  split; [exact Hb | ].
  destruct Hb as [-> | [-> | ->]]; repeat split; reflexivity.
Qed.

(** ** Bookkeeping of the events of a run *)

Lemma events_run_nil (b : MicroBitButton) : events_of (run [] b) = [].
Proof. reflexivity. Qed.

Lemma is_press_edge_unpressed (pin : bool) (b : MicroBitButton) :
  is_press_edge pin b = true -> pressed b = false.
Proof.
  unfold is_press_edge. intros H. apply andb_prop in H as [_ H].
  apply negb_true_iff. exact H.
Qed.

Lemma is_release_edge_pressed (pin : bool) (b : MicroBitButton) :
  is_release_edge pin b = true -> pressed b = true.
Proof.
  unfold is_release_edge. intros H. apply andb_prop in H as [_ H]. exact H.
Qed.

Lemma isPressed_pressed (b : MicroBitButton) :
  isPressed b = if pressed b then 1 else 0.
Proof. reflexivity. Qed.

(** DOWN + isPressed(before) = UP + isPressed(after), over any run. *)
Lemma balance_run (ops : list Op) (b : MicroBitButton) :
  Z.of_nat (count_kind MICROBIT_BUTTON_EVT_DOWN (events_of (run ops b)))
  + isPressed b
  = Z.of_nat (count_kind MICROBIT_BUTTON_EVT_UP (events_of (run ops b)))
    + isPressed (state_of (run ops b)).
Proof.
  revert b. induction ops as [ | o ops IH]; intros b; [reflexivity | ].
  rewrite events_run_cons, run_cons, !count_kind_app, !Nat2Z.inj_add.
  specialize (IH (state_of (step o b))).
  destruct o as [pin now | config]; cbn [step] in *.
  - rewrite count_DOWN, count_UP.
    assert (Hs : isPressed (state_of (systemTick pin now b))
                 = isPressed b
                   + (if is_press_edge pin b then 1 else 0)
                   - (if is_release_edge pin b then 1 else 0)).
    { rewrite !isPressed_pressed, tick_pressed.
      pose proof (edges_exclusive pin b) as Hx.
      pose proof (is_press_edge_unpressed pin b) as Hp.
      pose proof (is_release_edge_pressed pin b) as Hr.
      destruct (is_press_edge pin b); destruct (is_release_edge pin b);
        try discriminate Hx;
        try rewrite (Hp eq_refl); try rewrite (Hr eq_refl);
        try reflexivity.
      destruct (pressed b); reflexivity. }
    destruct (is_press_edge pin b); destruct (is_release_edge pin b);
      cbn [Z.of_nat] in *; lia.
  - change (isPressed (state_of (setEventConfiguration config b)))
      with (isPressed b) in IH.
    change (count_kind MICROBIT_BUTTON_EVT_DOWN
              (events_of (setEventConfiguration config b))) with 0%nat.
    change (count_kind MICROBIT_BUTTON_EVT_UP
              (events_of (setEventConfiguration config b))) with 0%nat.
    cbn [Z.of_nat]. lia.
Qed.

(** X2.  Over any sequence of calls, from any state, the DOWN and UP events
    balance with what isPressed() returns before and after:
    DOWN + isPressed(before) = UP + isPressed(after).  So the two counts
    differ by at most one over any stretch of calls (between two DOWN events
    there is an UP, and conversely), and a button that starts unpressed never
    has more UP than DOWN events. *)
Theorem down_up_balance (ops : list Op) (b : MicroBitButton) :
  Z.of_nat (count_kind MICROBIT_BUTTON_EVT_DOWN (events_of (run ops b)))
  + isPressed b
  = Z.of_nat (count_kind MICROBIT_BUTTON_EVT_UP (events_of (run ops b)))
    + isPressed (state_of (run ops b))
  /\ (count_kind MICROBIT_BUTTON_EVT_DOWN (events_of (run ops b))
      <= count_kind MICROBIT_BUTTON_EVT_UP (events_of (run ops b)) + 1)%nat
  /\ (count_kind MICROBIT_BUTTON_EVT_UP (events_of (run ops b))
      <= count_kind MICROBIT_BUTTON_EVT_DOWN (events_of (run ops b)) + 1)%nat
  /\ (isPressed b = 0 ->
      (count_kind MICROBIT_BUTTON_EVT_UP (events_of (run ops b))
       <= count_kind MICROBIT_BUTTON_EVT_DOWN (events_of (run ops b)))%nat).
Proof.
  pose proof (balance_run ops b) as Hb.
  rewrite !isPressed_pressed in *.
  destruct (pressed b); destruct (pressed (state_of (run ops b)));
    repeat split; try intros ?; try discriminate; lia.
Qed.

Lemma down_up_balance_witness :
  (count_kind MICROBIT_BUTTON_EVT_UP
     (events_of (run (press_release 20 20 0 6 ++ ticks false 9 300 6)
                   (MicroBitButton_new 0 1 MICROBIT_BUTTON_SIMPLE_EVENTS)))
   <= count_kind MICROBIT_BUTTON_EVT_DOWN
        (events_of (run (press_release 20 20 0 6 ++ ticks false 9 300 6)
                      (MicroBitButton_new 0 1
                         MICROBIT_BUTTON_SIMPLE_EVENTS))))%nat.
Proof.
  apply (proj2 (proj2 (proj2
    (down_up_balance (press_release 20 20 0 6 ++ ticks false 9 300 6)
       (MicroBitButton_new 0 1 MICROBIT_BUTTON_SIMPLE_EVENTS))))).
  reflexivity.
Defined.

Lemma stays_all_config (o : Op) (b : MicroBitButton) :
  stays_all [o] = true ->
  eventConfiguration b = MICROBIT_BUTTON_ALL_EVENTS ->
  eventConfiguration (state_of (step o b)) = MICROBIT_BUTTON_ALL_EVENTS.
Proof.
  destruct o as [pin now | config]; cbn [stays_all forallb step].
  - intros _ Hb. rewrite tick_eventConfiguration. exact Hb.
  - destruct config; [discriminate | reflexivity].
Qed.

(** X3.  A CLICK or LONG_CLICK is only ever raised with an UP: over any
    sequence of calls, from any state, there are at most as many of them as
    UP events, and exactly as many when the configuration is ALL_EVENTS
    throughout. *)
Theorem clicks_follow_up (ops : list Op) (b : MicroBitButton) :
  (count_kind MICROBIT_BUTTON_EVT_CLICK (events_of (run ops b))
   + count_kind MICROBIT_BUTTON_EVT_LONG_CLICK (events_of (run ops b))
   <= count_kind MICROBIT_BUTTON_EVT_UP (events_of (run ops b)))%nat
  /\ (eventConfiguration b = MICROBIT_BUTTON_ALL_EVENTS ->
      stays_all ops = true ->
      (count_kind MICROBIT_BUTTON_EVT_CLICK (events_of (run ops b))
       + count_kind MICROBIT_BUTTON_EVT_LONG_CLICK (events_of (run ops b))
       = count_kind MICROBIT_BUTTON_EVT_UP (events_of (run ops b)))%nat).
Proof.
  revert b. induction ops as [ | o ops IH]; intros b.
  - split; [apply Nat.le_refl | reflexivity].
  - rewrite events_run_cons, !count_kind_app.
    destruct (IH (state_of (step o b))) as [IHle IHeq].
    assert (Hstep :
      (count_kind MICROBIT_BUTTON_EVT_CLICK (events_of (step o b))
       + count_kind MICROBIT_BUTTON_EVT_LONG_CLICK (events_of (step o b))
       <= count_kind MICROBIT_BUTTON_EVT_UP (events_of (step o b)))%nat
      /\ (eventConfiguration b = MICROBIT_BUTTON_ALL_EVENTS ->
          (count_kind MICROBIT_BUTTON_EVT_CLICK (events_of (step o b))
           + count_kind MICROBIT_BUTTON_EVT_LONG_CLICK (events_of (step o b))
           = count_kind MICROBIT_BUTTON_EVT_UP (events_of (step o b)))%nat)).
    { destruct o as [pin now | config]; cbn [step].
      - rewrite count_CLICK, count_LONG_CLICK, count_UP.
        destruct (is_release_edge pin b);
          destruct (eventConfiguration b);
          destruct (ulong_sub now (downStartTime b)
                    >=? MICROBIT_BUTTON_LONG_CLICK_TIME);
          cbn [andb negb config_eqb Nat.add];
          split; try discriminate; try reflexivity; try lia;
            intros _; reflexivity.
      - split; [apply Nat.le_refl | reflexivity]. }
    destruct Hstep as [Hle Heq].
    split; [lia | ].
    intros Hb Hops. cbn [stays_all forallb] in Hops.
    apply andb_prop in Hops as [Ho Hops].
    assert (Ho' : stays_all [o] = true).
    { cbn [stays_all forallb]. rewrite Ho. reflexivity. }
    specialize (IHeq (stays_all_config o b Ho' Hb) Hops).
    specialize (Heq Hb). lia.
Qed.

Lemma clicks_follow_up_witness :
  (count_kind MICROBIT_BUTTON_EVT_CLICK
     (events_of (run (press_release 20 20 0 6 ++ press_release 20 20 2000 100)
                   (MicroBitButton_new 0 1 MICROBIT_BUTTON_ALL_EVENTS)))
   + count_kind MICROBIT_BUTTON_EVT_LONG_CLICK
       (events_of (run (press_release 20 20 0 6
                        ++ press_release 20 20 2000 100)
                     (MicroBitButton_new 0 1 MICROBIT_BUTTON_ALL_EVENTS)))
   = count_kind MICROBIT_BUTTON_EVT_UP
       (events_of (run (press_release 20 20 0 6
                        ++ press_release 20 20 2000 100)
                     (MicroBitButton_new 0 1 MICROBIT_BUTTON_ALL_EVENTS))))%nat.
Proof.
  apply (proj2 (clicks_follow_up
                  (press_release 20 20 0 6 ++ press_release 20 20 2000 100)
                  (MicroBitButton_new 0 1 MICROBIT_BUTTON_ALL_EVENTS)));
    reflexivity.
Defined.



(** X5.  The events of one tick, in order, are one of: none, DOWN, UP,
    UP then CLICK, UP then LONG_CLICK, HOLD.  A tick raises at most two
    events, and a CLICK or LONG_CLICK comes right after the UP of the same
    tick. *)
Theorem tick_event_shapes (pin : bool) (now : Z) (b : MicroBitButton) :
  kinds (events_of (systemTick pin now b)) = []
  \/ kinds (events_of (systemTick pin now b)) = [MICROBIT_BUTTON_EVT_DOWN]
  \/ kinds (events_of (systemTick pin now b)) = [MICROBIT_BUTTON_EVT_UP]
  \/ kinds (events_of (systemTick pin now b))
     = [MICROBIT_BUTTON_EVT_UP; MICROBIT_BUTTON_EVT_CLICK]
  \/ kinds (events_of (systemTick pin now b))
     = [MICROBIT_BUTTON_EVT_UP; MICROBIT_BUTTON_EVT_LONG_CLICK]
  \/ kinds (events_of (systemTick pin now b)) = [MICROBIT_BUTTON_EVT_HOLD].
Proof.
  rewrite tick_events.
  pose proof (edges_exclusive pin b) as Hx.
  pose proof (hold_not_on_press pin now b) as Hp.
  pose proof (hold_not_on_release pin now b) as Hr.
  destruct (is_press_edge pin b); destruct (is_release_edge pin b);
    try discriminate Hx;
    destruct (hold_condition now (at_hold_check pin now b));
    try (specialize (Hp eq_refl); discriminate Hp);
    try (specialize (Hr eq_refl); discriminate Hr);
    destruct (eventConfiguration b);
    try destruct (ulong_sub now (downStartTime b)
                  >=? MICROBIT_BUTTON_LONG_CLICK_TIME);
    cbn; tauto.
Qed.

Lemma step_id (o : Op) (b : MicroBitButton) : id (state_of (step o b)) = id b.
Proof. destruct o as [pin now | config]; [apply tick_id | reflexivity]. Qed.

(** X6.  Every event a button raises carries the id the button has, which no
    call changes, and is one of DOWN, UP, CLICK, LONG_CLICK and HOLD: the
    driver itself never raises DOUBLE_CLICK. *)
Theorem events_carry_id (ops : list Op) (b : MicroBitButton)
    (e : MicroBitEvent) :
  In e (events_of (run ops b)) ->
  source e = id b
  /\ MICROBIT_BUTTON_EVT_DOWN <= value e <= MICROBIT_BUTTON_EVT_HOLD
  /\ value e <> MICROBIT_BUTTON_EVT_DOUBLE_CLICK
  /\ id (state_of (run ops b)) = id b.
Proof.
  intros Hin.
  assert (Hid : id (state_of (run ops b)) = id b).
  { clear Hin. revert b. induction ops as [ | o ops IH]; intros b;
      [reflexivity | ].
    rewrite run_cons, IH. apply step_id. }
  assert (H : source e = id b
              /\ MICROBIT_BUTTON_EVT_DOWN <= value e
                 <= MICROBIT_BUTTON_EVT_HOLD).
  { clear Hid. revert b Hin. induction ops as [ | o ops IH]; intros b Hin.
    - destruct Hin.
    - rewrite events_run_cons in Hin. apply in_app_or in Hin.
      destruct Hin as [Hin | Hin].
      + destruct o as [pin now | config]; [ | destruct Hin].
        cbn [step] in Hin. rewrite tick_events in Hin.
        unfold MICROBIT_BUTTON_EVT_DOWN, MICROBIT_BUTTON_EVT_HOLD.
        destruct (is_press_edge pin b); destruct (is_release_edge pin b);
          destruct (hold_condition now (at_hold_check pin now b));
          destruct (eventConfiguration b);
          try destruct (ulong_sub now (downStartTime b)
                        >=? MICROBIT_BUTTON_LONG_CLICK_TIME);
          cbn [app In] in Hin;
          repeat (destruct Hin as [<- | Hin];
                  [unfold evt, MICROBIT_BUTTON_EVT_DOWN,
                     MICROBIT_BUTTON_EVT_UP, MICROBIT_BUTTON_EVT_CLICK,
                     MICROBIT_BUTTON_EVT_LONG_CLICK, MICROBIT_BUTTON_EVT_HOLD;
                   cbn [source value]; split; [reflexivity | lia] | ]);
          destruct Hin.
      + rewrite <- (step_id o b).
        apply (IH (state_of (step o b)) Hin). }
  destruct H as [Hs Hv].
  split; [exact Hs | split; [exact Hv | split; [ | exact Hid]]].
  unfold MICROBIT_BUTTON_EVT_DOUBLE_CLICK, MICROBIT_BUTTON_EVT_HOLD in *. lia.
Qed.

Lemma events_carry_id_witness :
  source (mkEvent 7 MICROBIT_BUTTON_EVT_CLICK) = 7
  /\ MICROBIT_BUTTON_EVT_DOWN <= value (mkEvent 7 MICROBIT_BUTTON_EVT_CLICK)
     <= MICROBIT_BUTTON_EVT_HOLD
  /\ value (mkEvent 7 MICROBIT_BUTTON_EVT_CLICK)
     <> MICROBIT_BUTTON_EVT_DOUBLE_CLICK
  /\ id (state_of (run (press_release 20 20 0 6)
                     (MicroBitButton_new 0 7 MICROBIT_BUTTON_ALL_EVENTS)))
     = 7.
Proof.
  apply (events_carry_id (press_release 20 20 0 6)
           (MicroBitButton_new 0 7 MICROBIT_BUTTON_ALL_EVENTS)
           (mkEvent 7 MICROBIT_BUTTON_EVT_CLICK)).
  vm_compute. right. right. left. reflexivity.
Defined.

(** ** Debouncing *)

Lemma count_low_cons (o : Op) (ops : list Op) :
  count_low (o :: ops) = (if is_low o then 1 else 0) + count_low ops.
Proof.
  unfold count_low. cbn [filter].
  destruct (is_low o); [cbn [length]; lia | reflexivity].
Qed.

Lemma count_high_cons (o : Op) (ops : list Op) :
  count_high (o :: ops) = (if is_high o then 1 else 0) + count_high ops.
Proof.
  unfold count_high. cbn [filter].
  destruct (is_high o); [cbn [length]; lia | reflexivity].
Qed.

Lemma count_low_nonneg (ops : list Op) : 0 <= count_low ops.
Proof. unfold count_low. lia. Qed.

Lemma count_high_nonneg (ops : list Op) : 0 <= count_high ops.
Proof. unfold count_high. lia. Qed.

Lemma sigma_next_bounds (pin : bool) (b : MicroBitButton) :
  debounced b ->
  sigma b - (if pin then 1 else 0) <= sigma_next pin b
  <= sigma b + (if pin then 0 else 1).
Proof.
  intros (Hs & _). rewrite (sigma_next_clamped pin b Hs).
  unfold MICROBIT_BUTTON_SIGMA_MIN, MICROBIT_BUTTON_SIGMA_MAX in *.
  destruct pin; cbn [negb];
    [destruct (Z.eqb_spec (sigma b) 0) | destruct (Z.eqb_spec (sigma b) 12)];
    lia.
Qed.

(** A tick of an unpressed button that leaves the integrator at 8 or below
    does nothing but move the integrator. *)
Lemma quiet_tick (pin : bool) (now : Z) (b : MicroBitButton) :
  pressed b = false ->
  sigma_next pin b <= MICROBIT_BUTTON_SIGMA_THRESH_HI ->
  events_of (systemTick pin now b) = []
  /\ pressed (state_of (systemTick pin now b)) = false.
Proof.
  intros Hp Hs.
  assert (Hpe : is_press_edge pin b = false).
  { unfold is_press_edge. rewrite Z.gtb_ltb.
    destruct (Z.ltb_spec MICROBIT_BUTTON_SIGMA_THRESH_HI (sigma_next pin b));
      [lia | reflexivity]. }
  assert (Hre : is_release_edge pin b = false).
  { unfold is_release_edge. rewrite Hp. apply andb_false_r. }
  rewrite tick_events, tick_pressed, hold_condition_pre, Hpe, Hre, Hp.
  split; reflexivity.
Qed.

Lemma glitch_ignored_from (ops : list Op) (b : MicroBitButton) :
  debounced b ->
  pressed b = false ->
  sigma b + count_low ops <= MICROBIT_BUTTON_SIGMA_THRESH_HI ->
  events_of (run ops b) = []
  /\ pressed (state_of (run ops b)) = false.
Proof.
  revert b. induction ops as [ | o ops IH]; intros b Hd Hp Hs.
  - split; [reflexivity | exact Hp].
  - rewrite events_run_cons, run_cons. rewrite count_low_cons in Hs.
    pose proof (count_low_nonneg ops) as Hn.
    destruct o as [pin now | config]; cbn [step is_low] in *.
    + pose proof (sigma_next_bounds pin b Hd) as Hb.
      assert (Hq : sigma_next pin b <= MICROBIT_BUTTON_SIGMA_THRESH_HI).
      { destruct pin; cbn [negb] in *; lia. }
      destruct (quiet_tick pin now b Hp Hq) as [He Hp'].
      rewrite He. cbn [app].
      apply IH; [apply debounced_tick, Hd | exact Hp' | ].
      rewrite tick_sigma. destruct pin; cbn [negb] in *; lia.
    + apply (IH (state_of (setEventConfiguration config b)) Hd Hp). exact Hs.
Qed.

(** X7.  Short bursts are filtered out.  If a button that is not pressed
    samples its input asserted on so few ticks of a sequence that the
    integrator, even counting all of them, cannot pass 8, then the sequence
    raises no event at all and leaves the button unpressed, however the
    asserted samples are spread.  A new button needs 9 asserted samples. *)
Theorem glitch_ignored (nm ident : Z)
    (cfg : MicroBitButtonEventConfiguration) (pre ops : list Op) :
  pressed (reach nm ident cfg pre) = false ->
  sigma (reach nm ident cfg pre) + count_low ops
  <= MICROBIT_BUTTON_SIGMA_THRESH_HI ->
  events_of (run ops (reach nm ident cfg pre)) = []
  /\ isPressed (state_of (run ops (reach nm ident cfg pre))) = 0.
Proof.
  intros Hp Hs.
  destruct (glitch_ignored_from ops _ (debounced_reach nm ident cfg pre) Hp Hs)
    as [He Hp'].
  split; [exact He | ]. rewrite isPressed_pressed, Hp'. reflexivity.
Qed.

Lemma glitch_ignored_witness :
  events_of
    (run (ticks false 4 100 6 ++ ticks true 2 124 6 ++ ticks false 4 136 6)
       (reach 0 1 MICROBIT_BUTTON_ALL_EVENTS [])) = []
  /\ isPressed
       (state_of
          (run (ticks false 4 100 6 ++ ticks true 2 124 6
                ++ ticks false 4 136 6)
             (reach 0 1 MICROBIT_BUTTON_ALL_EVENTS []))) = 0.
Proof.
  apply (glitch_ignored 0 1 MICROBIT_BUTTON_ALL_EVENTS []
           (ticks false 4 100 6 ++ ticks true 2 124 6 ++ ticks false 4 136 6)).
  - reflexivity.
  - vm_compute. discriminate.
Defined.

(** A tick of a pressed button that leaves the integrator at 2 or above
    raises nothing but, possibly, HOLD. *)
Lemma held_tick (pin : bool) (now : Z) (b : MicroBitButton) :
  pressed b = true ->
  MICROBIT_BUTTON_SIGMA_THRESH_LO <= sigma_next pin b ->
  events_of (systemTick pin now b)
  = (if hold_condition now (at_hold_check pin now b)
     then [evt b MICROBIT_BUTTON_EVT_HOLD] else [])
  /\ pressed (state_of (systemTick pin now b)) = true.
Proof.
  intros Hp Hs.
  assert (Hpe : is_press_edge pin b = false).
  { unfold is_press_edge. rewrite Hp. apply andb_false_r. }
  assert (Hre : is_release_edge pin b = false).
  { unfold is_release_edge.
    destruct (Z.ltb_spec (sigma_next pin b) MICROBIT_BUTTON_SIGMA_THRESH_LO);
      [lia | reflexivity]. }
  rewrite tick_events, tick_pressed, Hpe, Hre, Hp.
  split; reflexivity.
Qed.

Lemma dropout_ignored_from (ops : list Op) (b : MicroBitButton) :
  debounced b ->
  pressed b = true ->
  MICROBIT_BUTTON_SIGMA_THRESH_LO <= sigma b - count_high ops ->
  (forall e, In e (events_of (run ops b)) ->
             value e = MICROBIT_BUTTON_EVT_HOLD)
  /\ pressed (state_of (run ops b)) = true.
Proof.
  revert b. induction ops as [ | o ops IH]; intros b Hd Hp Hs.
  - split; [intros e [] | exact Hp].
  - rewrite events_run_cons, run_cons. rewrite count_high_cons in Hs.
    pose proof (count_high_nonneg ops) as Hn.
    destruct o as [pin now | config]; cbn [step is_high] in *.
    + pose proof (sigma_next_bounds pin b Hd) as Hb.
      assert (Hq : MICROBIT_BUTTON_SIGMA_THRESH_LO <= sigma_next pin b).
      { destruct pin; lia. }
      destruct (held_tick pin now b Hp Hq) as [He Hp'].
      destruct (IH (state_of (systemTick pin now b))) as [IHe IHp].
      { apply debounced_tick, Hd. }
      { exact Hp'. }
      { rewrite tick_sigma. destruct pin; lia. }
      split; [ | exact IHp].
      intros e Hin. apply in_app_or in Hin. destruct Hin as [Hin | Hin].
      * rewrite He in Hin.
        destruct (hold_condition now (at_hold_check pin now b));
          [ | destruct Hin].
        destruct Hin as [<- | []]. reflexivity.
      * apply IHe, Hin.
    + apply (IH (state_of (setEventConfiguration config b)) Hd Hp). exact Hs.
Qed.

(** X8.  Short dropouts are filtered out.  If a pressed button samples its
    input deasserted on so few ticks of a sequence that the integrator, even
    counting all of them, cannot fall below 2, then the sequence raises no
    UP, CLICK, LONG_CLICK or DOWN (HOLD is all it can raise) and leaves the
    button pressed. *)
Theorem dropout_ignored (nm ident : Z)
    (cfg : MicroBitButtonEventConfiguration) (pre ops : list Op)
    (e : MicroBitEvent) :
  pressed (reach nm ident cfg pre) = true ->
  MICROBIT_BUTTON_SIGMA_THRESH_LO
  <= sigma (reach nm ident cfg pre) - count_high ops ->
  (In e (events_of (run ops (reach nm ident cfg pre))) ->
   value e = MICROBIT_BUTTON_EVT_HOLD)
  /\ isPressed (state_of (run ops (reach nm ident cfg pre))) = 1.
Proof.
  intros Hp Hs.
  destruct (dropout_ignored_from ops _ (debounced_reach nm ident cfg pre)
              Hp Hs) as [He Hp'].
  split; [apply He | ]. rewrite isPressed_pressed, Hp'. reflexivity.
Qed.

Lemma dropout_ignored_witness :
  (In (mkEvent 1 MICROBIT_BUTTON_EVT_HOLD)
      (events_of
         (run (ticks true 5 200 6 ++ ticks false 3 1600 6
               ++ ticks true 5 1700 6)
            (reach 0 1 MICROBIT_BUTTON_ALL_EVENTS (ticks false 12 0 6)))) ->
   value (mkEvent 1 MICROBIT_BUTTON_EVT_HOLD) = MICROBIT_BUTTON_EVT_HOLD)
  /\ isPressed
       (state_of
          (run (ticks true 5 200 6 ++ ticks false 3 1600 6
                ++ ticks true 5 1700 6)
             (reach 0 1 MICROBIT_BUTTON_ALL_EVENTS (ticks false 12 0 6))))
     = 1.
Proof.
  apply (dropout_ignored 0 1 MICROBIT_BUTTON_ALL_EVENTS (ticks false 12 0 6)
           (ticks true 5 200 6 ++ ticks false 3 1600 6 ++ ticks true 5 1700 6)
           (mkEvent 1 MICROBIT_BUTTON_EVT_HOLD)).
  - reflexivity.
  - vm_compute. discriminate.
Defined.

Lemma run_all_low (ops : list Op) (b : MicroBitButton) :
  debounced b ->
  forallb is_low ops = true ->
  sigma (state_of (run ops b))
  = Z.min MICROBIT_BUTTON_SIGMA_MAX (sigma b + Z.of_nat (length ops))
  /\ count_kind MICROBIT_BUTTON_EVT_UP (events_of (run ops b)) = 0%nat.
Proof.
  revert b. induction ops as [ | o ops IH]; intros b Hd Hl.
  - destruct Hd as (Hs & _). cbn [length Z.of_nat].
    split; [cbn; lia | reflexivity].
  - cbn [forallb] in Hl. apply andb_prop in Hl as [Ho Hl].
    destruct o as [pin now | config]; [ | discriminate Ho].
    cbn [is_low] in Ho. apply negb_true_iff in Ho. subst pin.
    rewrite events_run_cons, run_cons, count_kind_app. cbn [step].
    destruct (IH _ (debounced_tick false now b Hd) Hl) as [IHs IHu].
    rewrite IHs, IHu, tick_sigma, count_UP.
    pose proof (sigma_next_bounds false b Hd) as Hb.
    pose proof (debounced_tick false now b Hd) as (Hs' & _).
    rewrite tick_sigma in Hs'.
    destruct Hd as (Hs & _ & Hhi).
    rewrite (sigma_next_clamped false b Hs) in *. cbn [negb] in *.
    unfold is_release_edge.
    rewrite (sigma_next_clamped false b Hs). cbn [negb].
    unfold MICROBIT_BUTTON_SIGMA_MIN, MICROBIT_BUTTON_SIGMA_MAX,
      MICROBIT_BUTTON_SIGMA_THRESH_LO in *.
    cbn [length]. rewrite Nat2Z.inj_succ.
    destruct (Z.eqb_spec (sigma b) 12).
    + split; [lia | ]. reflexivity.
    + split; [lia | ].
      destruct (pressed b); [ | rewrite andb_false_r; reflexivity].
      specialize (Hhi eq_refl).
      destruct (Z.ltb_spec (sigma b + 1) 2); [lia | reflexivity].
Qed.

Lemma run_all_high (ops : list Op) (b : MicroBitButton) :
  debounced b ->
  forallb is_high ops = true ->
  sigma (state_of (run ops b))
  = Z.max MICROBIT_BUTTON_SIGMA_MIN (sigma b - Z.of_nat (length ops))
  /\ count_kind MICROBIT_BUTTON_EVT_DOWN (events_of (run ops b)) = 0%nat.
Proof.
  revert b. induction ops as [ | o ops IH]; intros b Hd Hl.
  - destruct Hd as (Hs & _). cbn [length Z.of_nat].
    split; [cbn; lia | reflexivity].
  - cbn [forallb] in Hl. apply andb_prop in Hl as [Ho Hl].
    destruct o as [pin now | config]; [ | discriminate Ho].
    cbn [is_high] in Ho. subst pin.
    rewrite events_run_cons, run_cons, count_kind_app. cbn [step].
    destruct (IH _ (debounced_tick true now b Hd) Hl) as [IHs IHu].
    rewrite IHs, IHu, tick_sigma, count_DOWN.
    destruct Hd as (Hs & Hlo & _).
    unfold is_press_edge.
    rewrite (sigma_next_clamped true b Hs). cbn [negb].
    unfold MICROBIT_BUTTON_SIGMA_MIN, MICROBIT_BUTTON_SIGMA_MAX,
      MICROBIT_BUTTON_SIGMA_THRESH_HI in *.
    cbn [length]. rewrite Nat2Z.inj_succ, Z.gtb_ltb.
    destruct (Z.eqb_spec (sigma b) 0).
    + split; [lia | ].
      destruct (Z.ltb_spec 8 0); [lia | reflexivity].
    + split; [lia | ].
      destruct (pressed b); [rewrite andb_false_r; reflexivity | ].
      specialize (Hlo eq_refl).
      destruct (Z.ltb_spec 8 (sigma b - 1)); [lia | reflexivity].
Qed.

(** X9.  Bounded press latency.  From any state a button can be in, 9 or
    more consecutive ticks with the input asserted leave it pressed, with
    the integrator at min(12, integrator + ticks); over them it raises no UP,
    and one DOWN exactly when it was not pressed before. *)
Theorem press_latency (nm ident : Z)
    (cfg : MicroBitButtonEventConfiguration) (pre ops : list Op) :
  forallb is_low ops = true ->
  (9 <= length ops)%nat ->
  isPressed (state_of (run ops (reach nm ident cfg pre))) = 1
  /\ sigma (state_of (run ops (reach nm ident cfg pre)))
     = Z.min 12 (sigma (reach nm ident cfg pre) + Z.of_nat (length ops))
  /\ count_kind MICROBIT_BUTTON_EVT_UP
       (events_of (run ops (reach nm ident cfg pre))) = 0%nat
  /\ count_kind MICROBIT_BUTTON_EVT_DOWN
       (events_of (run ops (reach nm ident cfg pre)))
     = (if pressed (reach nm ident cfg pre) then 0%nat else 1%nat).
Proof.
  intros Hl Hn.
  pose proof (debounced_reach nm ident cfg pre) as Hd.
  destruct (run_all_low ops _ Hd Hl) as [Hs Hu].
  pose proof (debounced_run ops _ Hd) as (_ & Hlo & _).
  pose proof (balance_run ops (reach nm ident cfg pre)) as Hb.
  set (b := reach nm ident cfg pre) in *.
  destruct Hd as (Hr & _).
  unfold MICROBIT_BUTTON_SIGMA_MIN, MICROBIT_BUTTON_SIGMA_MAX,
    MICROBIT_BUTTON_SIGMA_THRESH_HI in *.
  assert (Hp : pressed (state_of (run ops b)) = true).
  { destruct (pressed (state_of (run ops b))); [reflexivity | ].
    specialize (Hlo eq_refl). lia. }
  rewrite !isPressed_pressed, Hp, Hu in Hb.
  rewrite isPressed_pressed, Hp.
  repeat split; try assumption.
  destruct (pressed b); cbn [Z.of_nat] in Hb; lia.
Qed.

Lemma press_latency_witness :
  isPressed
    (state_of (run (ticks false 9 300 6)
                 (reach 0 1 MICROBIT_BUTTON_ALL_EVENTS
                    (press_release 20 20 0 6)))) = 1
  /\ sigma
       (state_of (run (ticks false 9 300 6)
                    (reach 0 1 MICROBIT_BUTTON_ALL_EVENTS
                       (press_release 20 20 0 6))))
     = Z.min 12
         (sigma (reach 0 1 MICROBIT_BUTTON_ALL_EVENTS
                   (press_release 20 20 0 6))
          + Z.of_nat (length (ticks false 9 300 6)))
  /\ count_kind MICROBIT_BUTTON_EVT_UP
       (events_of (run (ticks false 9 300 6)
                     (reach 0 1 MICROBIT_BUTTON_ALL_EVENTS
                        (press_release 20 20 0 6)))) = 0%nat
  /\ count_kind MICROBIT_BUTTON_EVT_DOWN
       (events_of (run (ticks false 9 300 6)
                     (reach 0 1 MICROBIT_BUTTON_ALL_EVENTS
                        (press_release 20 20 0 6))))
     = (if pressed (reach 0 1 MICROBIT_BUTTON_ALL_EVENTS
                      (press_release 20 20 0 6))
        then 0%nat else 1%nat).
Proof.
  apply (press_latency 0 1 MICROBIT_BUTTON_ALL_EVENTS
           (press_release 20 20 0 6) (ticks false 9 300 6)).
  - reflexivity.
  - vm_compute. repeat constructor.
Defined.

(** X10.  Bounded release latency.  From any state a button can be in, 11 or
    more consecutive ticks with the input deasserted leave it unpressed with
    both flags clear, the integrator at max(0, integrator - ticks); over
    them it raises no DOWN, and one UP exactly when it was pressed before. *)
Theorem release_latency (nm ident : Z)
    (cfg : MicroBitButtonEventConfiguration) (pre ops : list Op) :
  forallb is_high ops = true ->
  (11 <= length ops)%nat ->
  isPressed (state_of (run ops (reach nm ident cfg pre))) = 0
  /\ status (state_of (run ops (reach nm ident cfg pre))) = 0
  /\ sigma (state_of (run ops (reach nm ident cfg pre)))
     = Z.max 0 (sigma (reach nm ident cfg pre) - Z.of_nat (length ops))
  /\ count_kind MICROBIT_BUTTON_EVT_DOWN
       (events_of (run ops (reach nm ident cfg pre))) = 0%nat
  /\ count_kind MICROBIT_BUTTON_EVT_UP
       (events_of (run ops (reach nm ident cfg pre)))
     = (if pressed (reach nm ident cfg pre) then 1%nat else 0%nat).
Proof.
  intros Hl Hn.
  pose proof (debounced_reach nm ident cfg pre) as Hd.
  destruct (run_all_high ops _ Hd Hl) as [Hs Hu].
  pose proof (debounced_run ops _ Hd) as (_ & _ & Hhi).
  pose proof (balance_run ops (reach nm ident cfg pre)) as Hb.
  pose proof (status_ok_run ops _ (status_ok_reach nm ident cfg pre)) as Hst.
  set (b := reach nm ident cfg pre) in *.
  destruct Hd as (Hr & _).
  unfold MICROBIT_BUTTON_SIGMA_MIN, MICROBIT_BUTTON_SIGMA_MAX,
    MICROBIT_BUTTON_SIGMA_THRESH_LO in *.
  assert (Hp : pressed (state_of (run ops b)) = false).
  { destruct (pressed (state_of (run ops b))); [ | reflexivity].
    specialize (Hhi eq_refl). lia. }
  rewrite !isPressed_pressed, Hp, Hu in Hb.
  rewrite isPressed_pressed, Hp.
  repeat split; try assumption.
  - unfold pressed in Hp.
    destruct Hst as [H | [H | H]]; rewrite H in Hp; try discriminate Hp.
    exact H.
  - destruct (pressed b); cbn [Z.of_nat] in Hb; lia.
Qed.

Lemma release_latency_witness :
  isPressed
    (state_of (run (ticks true 11 3000 6)
                 (reach 0 1 MICROBIT_BUTTON_ALL_EVENTS
                    (ticks false 20 0 100)))) = 0
  /\ status
       (state_of (run (ticks true 11 3000 6)
                    (reach 0 1 MICROBIT_BUTTON_ALL_EVENTS
                       (ticks false 20 0 100)))) = 0
  /\ sigma
       (state_of (run (ticks true 11 3000 6)
                    (reach 0 1 MICROBIT_BUTTON_ALL_EVENTS
                       (ticks false 20 0 100))))
     = Z.max 0
         (sigma (reach 0 1 MICROBIT_BUTTON_ALL_EVENTS (ticks false 20 0 100))
          - Z.of_nat (length (ticks true 11 3000 6)))
  /\ count_kind MICROBIT_BUTTON_EVT_DOWN
       (events_of (run (ticks true 11 3000 6)
                     (reach 0 1 MICROBIT_BUTTON_ALL_EVENTS
                        (ticks false 20 0 100)))) = 0%nat
  /\ count_kind MICROBIT_BUTTON_EVT_UP
       (events_of (run (ticks true 11 3000 6)
                     (reach 0 1 MICROBIT_BUTTON_ALL_EVENTS
                        (ticks false 20 0 100))))
     = (if pressed (reach 0 1 MICROBIT_BUTTON_ALL_EVENTS
                      (ticks false 20 0 100))
        then 1%nat else 0%nat).
Proof.
  apply (release_latency 0 1 MICROBIT_BUTTON_ALL_EVENTS
           (ticks false 20 0 100) (ticks true 11 3000 6)).
  - reflexivity.
  - vm_compute. repeat constructor.
Defined.

(** ** The event configuration and the debouncer *)

Lemma tick_config (pin : bool) (now : Z)
    (c : MicroBitButtonEventConfiguration) (b : MicroBitButton) :
  state_of (systemTick pin now (state_of (setEventConfiguration c b)))
  = state_of (setEventConfiguration c (state_of (systemTick pin now b)))
  /\ without_clicks
       (events_of (systemTick pin now (state_of (setEventConfiguration c b))))
     = without_clicks (events_of (systemTick pin now b)).
Proof.
  destruct (edges_ignore_config pin c b) as [Hp Hr].
  pose proof (hold_ignores_config pin now c b) as Hh.
  split.
  - rewrite !tick_state_eq, Hp, Hh.
    assert (Hst : status (at_hold_check pin now
                            (state_of (setEventConfiguration c b)))
                  = status (at_hold_check pin now b)).
    { rewrite !at_hold_check_eq, Hp, Hr. reflexivity. }
    rewrite Hst, !sigma_next_eq. reflexivity.
  - rewrite !tick_events, Hp, Hr, Hh.
    change (evt (state_of (setEventConfiguration c b))) with (evt b).
    change (eventConfiguration (state_of (setEventConfiguration c b))) with c.
    change (downStartTime (state_of (setEventConfiguration c b)))
      with (downStartTime b).
    unfold without_clicks.
    destruct (is_press_edge pin b); destruct (is_release_edge pin b);
      destruct (hold_condition now (at_hold_check pin now b));
      destruct c; destruct (eventConfiguration b);
      try destruct (ulong_sub now (downStartTime b)
                    >=? MICROBIT_BUTTON_LONG_CLICK_TIME);
      reflexivity.
Qed.

Lemma run_config (ops : list Op) (c : MicroBitButtonEventConfiguration)
    (b : MicroBitButton) :
  exists c',
    state_of (run ops (state_of (setEventConfiguration c b)))
    = state_of (setEventConfiguration c'
                  (state_of (run (filter is_tick ops) b)))
    /\ without_clicks
         (events_of (run ops (state_of (setEventConfiguration c b))))
       = without_clicks (events_of (run (filter is_tick ops) b)).
Proof.
  revert c b. induction ops as [ | o ops IH]; intros c b.
  - exists c. split; reflexivity.
  - destruct o as [pin now | config]; cbn [filter is_tick].
    + rewrite !events_run_cons, !run_cons. cbn [step].
      destruct (tick_config pin now c b) as [Hs He].
      rewrite Hs.
      destruct (IH c (state_of (systemTick pin now b))) as (c' & IHs & IHe).
      exists c'. split; [exact IHs | ].
      unfold without_clicks in *. rewrite !filter_app, He, IHe. reflexivity.
    + rewrite events_run_cons, run_cons. cbn [step].
      destruct (IH config b) as (c' & IHs & IHe).
      exists c'. split; [exact IHs | exact IHe].
Qed.

(** X11.  setEventConfiguration only switches CLICK and LONG_CLICK.  A
    sequence of calls and the same sequence with every setEventConfiguration
    call left out leave the same integrator, flags, press time and id, and
    raise the same DOWN, UP and HOLD events in the same order. *)
Theorem config_only_gates_clicks (ops : list Op) (b : MicroBitButton) :
  sigma (state_of (run ops b)) = sigma (state_of (run (filter is_tick ops) b))
  /\ status (state_of (run ops b))
     = status (state_of (run (filter is_tick ops) b))
  /\ downStartTime (state_of (run ops b))
     = downStartTime (state_of (run (filter is_tick ops) b))
  /\ isPressed (state_of (run ops b))
     = isPressed (state_of (run (filter is_tick ops) b))
  /\ without_clicks (events_of (run ops b))
     = without_clicks (events_of (run (filter is_tick ops) b)).
Proof.
  destruct (run_config ops (eventConfiguration b) b) as (c' & Hs & He).
  assert (Hb : state_of (setEventConfiguration (eventConfiguration b) b) = b).
  { destruct b; reflexivity. }
  rewrite Hb in Hs, He. rewrite Hs, He. unfold isPressed.
  repeat split; reflexivity.
Qed.

(** ** Clock values

    The driver only subtracts clock values on [unsigned long]: mapping every
    clock value by a function that keeps these differences changes
    nothing. *)

Section Reclock.

Variable f : Z -> Z.
Hypothesis f_keeps_elapsed :
  forall a c, ulong_sub (f a) (f c) = ulong_sub a c.

Lemma tick_reclock (pin : bool) (now : Z) (b : MicroBitButton) (x : Z) :
  (pressed b = true -> x = f (downStartTime b)) ->
  events_of (systemTick pin (f now) (with_downStartTime b x))
  = events_of (systemTick pin now b)
  /\ exists x',
       state_of (systemTick pin (f now) (with_downStartTime b x))
       = with_downStartTime (state_of (systemTick pin now b)) x'
       /\ (pressed (state_of (systemTick pin now b)) = true ->
           x' = f (downStartTime (state_of (systemTick pin now b)))).
Proof.
  intros Hx.
  destruct (edges_ignore_downStartTime pin b x) as [Hp Hr].
  assert (Hh : hold_condition (f now)
                 (at_hold_check pin (f now) (with_downStartTime b x))
               = hold_condition now (at_hold_check pin now b)).
  { rewrite !hold_condition_pre, Hr.
    change (pressed (with_downStartTime b x)) with (pressed b).
    change (holdTriggered (with_downStartTime b x)) with (holdTriggered b).
    change (downStartTime (with_downStartTime b x)) with x.
    destruct (pressed b); [ | reflexivity].
    rewrite (Hx eq_refl), f_keeps_elapsed. reflexivity. }
  split.
  - rewrite !tick_events, Hp, Hr, Hh.
    change (eventConfiguration (with_downStartTime b x))
      with (eventConfiguration b).
    change (downStartTime (with_downStartTime b x)) with x.
    f_equal. f_equal.
    destruct (is_release_edge pin b) eqn:Er; [ | reflexivity].
    rewrite (Hx (is_release_edge_pressed pin b Er)), f_keeps_elapsed.
    reflexivity.
  - exists (if is_press_edge pin b then f now else x).
    rewrite tick_pressed, tick_downStartTime, !tick_state_eq, Hp, Hh.
    assert (Hst : status (at_hold_check pin (f now)
                            (with_downStartTime b x))
                  = status (at_hold_check pin now b)).
    { rewrite !at_hold_check_eq, Hp, Hr. reflexivity. }
    rewrite Hst, !sigma_next_eq. split; [reflexivity | ].
    destruct (is_release_edge pin b); [discriminate | ].
    destruct (is_press_edge pin b); [reflexivity | exact Hx].
Qed.

Lemma trace_reclock (ops : list Op) (b : MicroBitButton) (x : Z) :
  (pressed b = true -> x = f (downStartTime b)) ->
  trace (map (map_clock f) ops) (with_downStartTime b x) = trace ops b.
Proof.
  revert b x.
  induction ops as [ | o ops IH]; intros b x Hx; [reflexivity | ].
  cbn [map trace].
  destruct o as [pin now | config]; cbn [map_clock step].
  - destruct (tick_reclock pin now b x Hx) as (He & x' & Hs & Hx').
    rewrite He, Hs, (IH _ x' Hx'). reflexivity.
  - change (state_of
              (setEventConfiguration config (with_downStartTime b x)))
      with (with_downStartTime
              (state_of (setEventConfiguration config b)) x).
    rewrite (IH (state_of (setEventConfiguration config b)) x Hx).
    reflexivity.
Qed.

End Reclock.



(** X13.  The origin of the clock is irrelevant.  Adding the same offset [d]
    to every clock value of a sequence of calls on a new button changes
    neither the integrator values nor the events, tick by tick. *)
Theorem clock_origin (nm ident d : Z)
    (cfg : MicroBitButtonEventConfiguration) (ops : list Op) :
  trace (map (map_clock (fun now => now + d)) ops)
        (MicroBitButton_new nm ident cfg)
  = trace ops (MicroBitButton_new nm ident cfg).
Proof.
  change (MicroBitButton_new nm ident cfg)
    with (with_downStartTime (MicroBitButton_new nm ident cfg) 0) at 1.
  apply trace_reclock; [ | discriminate].
  intros a c. apply ulong_sub_shift_both.
Qed.

(** ** A press that raised HOLD *)

Lemma aged_tick (pin : bool) (t now : Z) (b : MicroBitButton) :
  status_ok b ->
  aged t b ->
  t <= now < 2 ^ ULONG_BITS ->
  aged now (state_of (systemTick pin now b)).
Proof.
  intros Hst (Hd & Hh) Ht.
  unfold aged.
  rewrite tick_downStartTime, tick_holdTriggered,
    holdTriggered_at_hold_check.
  pose proof (hold_condition_pre pin now b) as Hc.
  pose proof (hold_not_on_press pin now b) as Hn.
  pose proof (is_press_edge_unpressed pin b) as Hu.
  destruct (is_release_edge pin b).
  - rewrite Hc, andb_false_r. cbn [orb negb andb].
    split; [destruct (is_press_edge pin b); lia | discriminate].
  - destruct (is_press_edge pin b).
    + rewrite (Hn eq_refl). specialize (Hu eq_refl).
      assert (Hf : holdTriggered b = false).
      { unfold pressed in Hu. unfold holdTriggered.
        destruct Hst as [H | [H | H]]; rewrite H in Hu |- *;
          try discriminate Hu. reflexivity. }
      rewrite Hf. split; [lia | discriminate].
    + split; [lia | ].
      destruct (holdTriggered b); [intros _; specialize (Hh eq_refl); lia | ].
      cbn [orb]. rewrite Hc. intros Ha.
      apply andb_prop in Ha as [_ Ha].
      rewrite ulong_sub_small in Ha by lia.
      unfold MICROBIT_BUTTON_HOLD_TIME in *.
      destruct (Z.geb_spec (now - downStartTime b) 1500); [lia | discriminate].
Qed.

Lemma held_press_is_long (pre : list Op) (pin : bool) (t now : Z)
    (b : MicroBitButton) :
  status_ok b ->
  aged t b ->
  monotone t (pre ++ [Tick pin now]) = true ->
  holdTriggered (state_of (run pre b)) = true ->
  (ulong_sub now (downStartTime (state_of (run pre b)))
   >=? MICROBIT_BUTTON_LONG_CLICK_TIME) = true.
Proof.
  revert t b. induction pre as [ | o pre IH]; intros t b Hst Ha Hm Hh.
  - cbn [app monotone] in Hm.
    apply andb_prop in Hm as [Hm _]. apply andb_prop in Hm as [Hm1 Hm2].
    apply Z.leb_le in Hm1. apply Z.ltb_lt in Hm2.
    destruct Ha as (Hd & Hold). specialize (Hold Hh).
    change (state_of (run [] b)) with b.
    rewrite ulong_sub_small by lia.
    unfold MICROBIT_BUTTON_HOLD_TIME, MICROBIT_BUTTON_LONG_CLICK_TIME in *.
    apply Z.geb_le. lia.
  - rewrite run_cons in Hh |- *.
    destruct o as [p n | config]; cbn [app monotone step] in *.
    + apply andb_prop in Hm as [Hm Hrest]. apply andb_prop in Hm as [Hm1 Hm2].
      apply Z.leb_le in Hm1. apply Z.ltb_lt in Hm2.
      apply (IH n (state_of (systemTick p n b))).
      * apply status_ok_tick, Hst.
      * apply (aged_tick p t n b Hst Ha). lia.
      * exact Hrest.
      * exact Hh.
    + apply (IH t (state_of (setEventConfiguration config b)) Hst Ha Hm Hh).
Qed.

(** X14.  Once HOLD has been raised for a press, the press ends with
    LONG_CLICK, never CLICK: on a clock that does not go back or roll over
    during the calls, a tick taken while holdTriggered is set raises no
    CLICK, and if it is a release edge in ALL_EVENTS mode it raises UP then
    LONG_CLICK. *)
Theorem hold_then_long_click (nm ident : Z)
    (cfg : MicroBitButtonEventConfiguration) (pre : list Op)
    (pin : bool) (now : Z) :
  monotone 0 (pre ++ [Tick pin now]) = true ->
  holdTriggered (reach nm ident cfg pre) = true ->
  count_kind MICROBIT_BUTTON_EVT_CLICK
    (events_of (systemTick pin now (reach nm ident cfg pre))) = 0%nat
  /\ (is_release_edge pin (reach nm ident cfg pre) = true ->
      eventConfiguration (reach nm ident cfg pre)
      = MICROBIT_BUTTON_ALL_EVENTS ->
      kinds (events_of (systemTick pin now (reach nm ident cfg pre)))
      = [MICROBIT_BUTTON_EVT_UP; MICROBIT_BUTTON_EVT_LONG_CLICK]).
Proof.
  intros Hm Hh.
  assert (Hl : (ulong_sub now (downStartTime (reach nm ident cfg pre))
                >=? MICROBIT_BUTTON_LONG_CLICK_TIME) = true).
  { apply (held_press_is_long pre pin 0 now
             (MicroBitButton_new nm ident cfg)).
    - left. reflexivity.
    - split; [cbn; lia | discriminate].
    - exact Hm.
    - exact Hh. }
  split.
  - rewrite count_CLICK, Hl. cbn [negb]. rewrite andb_false_r. reflexivity.
  - intros Hr Hc. rewrite (release_events pin now _ Hr), Hc, Hl. reflexivity.
Qed.

Lemma hold_then_long_click_witness :
  count_kind MICROBIT_BUTTON_EVT_CLICK
    (events_of
       (systemTick true 1620
          (reach 0 1 MICROBIT_BUTTON_ALL_EVENTS
             (ticks false 9 0 6 ++ Tick false 1548 :: ticks true 8 1560 6))))
  = 0%nat
  /\ (is_release_edge true
        (reach 0 1 MICROBIT_BUTTON_ALL_EVENTS
           (ticks false 9 0 6 ++ Tick false 1548 :: ticks true 8 1560 6))
      = true ->
      eventConfiguration
        (reach 0 1 MICROBIT_BUTTON_ALL_EVENTS
           (ticks false 9 0 6 ++ Tick false 1548 :: ticks true 8 1560 6))
      = MICROBIT_BUTTON_ALL_EVENTS ->
      kinds
        (events_of
           (systemTick true 1620
              (reach 0 1 MICROBIT_BUTTON_ALL_EVENTS
                 (ticks false 9 0 6
                  ++ Tick false 1548 :: ticks true 8 1560 6))))
      = [MICROBIT_BUTTON_EVT_UP; MICROBIT_BUTTON_EVT_LONG_CLICK]).
Proof.
  apply (hold_then_long_click 0 1 MICROBIT_BUTTON_ALL_EVENTS
           (ticks false 9 0 6 ++ Tick false 1548 :: ticks true 8 1560 6)
           true 1620); reflexivity.
Defined.
